(** * runint: manifest generator and lifecycle manager

    A shallow embedding of
      - [runint/runtime/engines/base.py]      (BaseEngine),
      - [runint/runtime/deploy/generators.py] (DockerComposeGenerator),
      - [runint/runtime/manager.py]           (RuntimeManager),
    together with the properties of the deployment lifecycle that the
    design document states about them.

    Python objects are attribute dictionaries ([gmap string PyVal]),
    Python dicts whose key order is observable are association lists,
    and the effectful methods of [RuntimeManager] run in a small state
    and exception monad over the file system, the clock and a trace of
    the external calls that were made. *)

From Stdlib Require Import ZArith Ascii String List Bool Lia.
From stdpp Require Import base option gmap strings list.

Open Scope Z_scope.

(** ** Python strings *)

(** [s.split(sep)] for a one-character separator: the pieces between
    the occurrences of [sep]; never the empty list. *)
Fixpoint py_split (sep : ascii) (s : string) : list string :=
  match s with
  | EmptyString => [EmptyString]
  | String c rest =>
      if Ascii.eqb c sep then EmptyString :: py_split sep rest
      else match py_split sep rest with
           | [] => [String c EmptyString]
           | piece :: pieces => String c piece :: pieces
           end
  end.

(** [c in s] for a one-character string [c]. *)
Fixpoint py_in_char (c : ascii) (s : string) : bool :=
  match s with
  | EmptyString => false
  | String d rest => Ascii.eqb d c || py_in_char c rest
  end.

(** [p in s] for strings: [p] occurs in [s] as a contiguous run. *)
Fixpoint py_in_str (p s : string) : bool :=
  String.prefix p s ||
  match s with
  | EmptyString => false
  | String _ rest => py_in_str p rest
  end.

(** ** Python values that end up in the manifest *)

(** What [yaml.dump] is given: strings, other scalars (numbers, booleans,
    [None], kept as their text), lists, and dicts in insertion order. *)
#[warnings="-register-all"]
Inductive yaml : Type :=
| YStr (s : string)
| YScalar (text : string)
| YList (items : list yaml)
| YDict (entries : list (string * yaml)).

(** A [Dict[str, Any]], in insertion order. *)
Abbreviation pydict := (list (string * yaml)).

(** [d.get(k)] / [d[k]] *)
Fixpoint dict_get (k : string) (d : pydict) : option yaml :=
  match d with
  | [] => None
  | (k', v) :: rest => if String.eqb k' k then Some v else dict_get k rest
  end.

(** [k in d] *)
Definition dict_mem (k : string) (d : pydict) : bool :=
  match dict_get k d with Some _ => true | None => false end.

(** [d[k] = v]: an existing key keeps its place, a new one goes last. *)
Fixpoint dict_set (k : string) (v : yaml) (d : pydict) : pydict :=
  match d with
  | [] => [(k, v)]
  | (k', v') :: rest =>
      if String.eqb k' k then (k', v) :: rest else (k', v') :: dict_set k v rest
  end.

(** Every string that occurs in a value, keys included. *)
Fixpoint yaml_strings (y : yaml) : list string :=
  match y with
  | YStr s => [s]
  | YScalar t => [t]
  | YList items => flat_map yaml_strings items
  | YDict entries => flat_map (fun kv => fst kv :: yaml_strings (snd kv)) entries
  end.

(** A name is mentioned by a value when it occurs in one of its strings. *)
Definition mentions (name : string) (y : yaml) : bool :=
  existsb (py_in_str name) (yaml_strings y).

(** ** Exceptions and results *)

(** The classes of [requests.exceptions] that matter here.
    [ReqConnectionError] stands for [ConnectionError] and its subclasses
    other than [ConnectTimeout], which derives from both
    [ConnectionError] and [Timeout].  [ReadTimeout] (a [Timeout]) and
    [HTTPError] are [RequestException]s but not [ConnectionError]s, and
    [ReqOther] is any further [RequestException] of that kind. *)
Inductive RequestsError : Type :=
| ReqConnectionError
| ReqConnectTimeout
| ReqReadTimeout
| ReqHTTPError (status : Z)
| ReqOther (what : string).

Inductive Exn : Type :=
| AttributeError (attr : string)
| TypeError (msg : string)
| IndexError
| ValueError (msg : string)
| OSError (msg : string)
| FileNotFoundError (msg : string)
| PermissionError (msg : string)
| OtherException (class_name msg : string)
| CalledProcessError (cmd : list string) (returncode : Z)
| RuntimeError (msg : string)
| TimeoutError (msg : string)
| RequestException (k : RequestsError).

(** [isinstance(e, subprocess.CalledProcessError)] *)
Definition is_CalledProcessError (e : Exn) : bool :=
  match e with CalledProcessError _ _ => true | _ => false end.

(** [isinstance(e, requests.RequestException)] *)
Definition is_RequestException (e : Exn) : bool :=
  match e with RequestException _ => true | _ => false end.

(** [isinstance(e, requests.ConnectionError)] *)
Definition is_requests_ConnectionError (e : Exn) : bool :=
  match e with
  | RequestException ReqConnectionError => true
  | RequestException ReqConnectTimeout => true
  | _ => false
  end.

(** The outcome of running a piece of Python: a value, an exception, or
    [OutOfFuel] when a loop of the model was cut short. *)
Inductive Res (A : Type) : Type :=
| Ok (a : A)
| Raise (e : Exn)
| OutOfFuel.
Arguments Ok {A} a.
Arguments Raise {A} e.
Arguments OutOfFuel {A}.

(** Statements one after the other, [x ← r; k]: the first one that
    does not return a value ends the run. *)
#[global] Instance Res_bind : MBind Res := fun A B k r =>
  match r with
  | Ok a => k a
  | Raise e => Raise e
  | OutOfFuel => OutOfFuel
  end.

(** ** The configuration object ([schemas/config.py])  *)

(** Modelled from the spec: the engine part of [RunConfig], whose
    schema module is not among the sources embedded here.  The design
    document gives it a provider identifier and provider-specific
    settings. *)
Record EngineConfig : Type := mkEngineConfig {
  provider : string;
  settings : pydict
}.

(** Modelled from the spec: a model descriptor of [RunConfig.models];
    the design document requires at least a name. *)
Record ModelConfig : Type := mkModelConfig {
  name : string;
  model_options : pydict
}.

(** Modelled from the spec: [RunConfig], with its [engine] and its
    [models], an ordered sequence of descriptors. *)
Record RunConfig : Type := mkRunConfig {
  engine : EngineConfig;
  models : list ModelConfig
}.

(** Modelled from the spec: [engine.model_dump()], the pydantic dump of
    the engine part as a plain dict. *)
Definition model_dump (e : EngineConfig) : pydict :=
  ("provider", YStr (provider e)) :: settings e.

(** ** [deploy/generators.py] *)

(** What the generator and the manager import from elsewhere.

    The two adapters are subclasses of [BaseEngine]: built from the
    engine's settings dict ([BaseEngine.__init__(config)]) and asked for
    [get_docker_service_config()], which returns the dict of one
    service.  Their bodies are in [engines/ollama.py] and
    [engines/vllm.py]; everything below holds for arbitrary ones.
    [yaml_dump] is
    [yaml.dump(compose_dict, sort_keys=False, default_flow_style=False)]
    and [str_exn] is [str(e)] for the exceptions that are formatted into
    log messages. *)
Class Libraries : Type := mkLibraries {
  OllamaEngine : pydict -> pydict;
  VLLMEngine : pydict -> pydict;
  yaml_dump : yaml -> string;
  str_exn : Exn -> string
}.

Section Generator.

Context {libs : Libraries}.

(** Step 1 of [generate]: the dispatch on the provider string. *)
Definition select_engine (run_config : RunConfig) : Res (string * pydict) :=
  let provider := provider (engine run_config) in
  let engine_conf := model_dump (engine run_config) in
  if String.eqb provider "ollama" then Ok ("ollama", OllamaEngine engine_conf)
  else if String.eqb provider "vllm" then Ok ("vllm", VLLMEngine engine_conf)
  else Raise (ValueError ("Unsupported provider: " +:+ provider)).

(** [for vol in service_def["volumes"]]: what iterating the value yields.
    A list yields its items, a dict its keys, a string its characters;
    other scalars are not iterable. *)
Fixpoint chars (s : string) : list yaml :=
  match s with
  | EmptyString => []
  | String c rest => YStr (String c EmptyString) :: chars rest
  end.

Definition py_iter (y : yaml) : Res (list yaml) :=
  match y with
  | YList items => Ok items
  | YDict entries => Ok (map (fun kv => YStr (fst kv)) entries)
  | YStr s => Ok (chars s)
  | YScalar _ => Raise (TypeError "object is not iterable")
  end.

(** The left-hand side of one declaration: [vol.split(":")[0]]. *)
Definition vol_name_of (vol : string) : Res string :=
  match py_split ":" vol with
  | piece :: _ => Ok piece
  | [] => Raise IndexError
  end.

(** The test of the loop: ["/" not in vol_name and "~" not in vol_name]. *)
Definition is_named_volume (vol_name : string) : bool :=
  negb (py_in_char "/" vol_name) && negb (py_in_char "~" vol_name).

(** One turn of the loop over the volume declarations, on the dict
    [compose_dict["volumes"]]. *)
Definition add_named_volume (volumes : pydict) (vol : yaml) : Res pydict :=
  match vol with
  | YStr decl =>
      vol_name ← vol_name_of decl;
      if is_named_volume vol_name
      then Ok (dict_set vol_name (YDict []) volumes)
      else Ok volumes
  | _ => Raise (AttributeError "split")
  end.

Fixpoint add_named_volumes (volumes : pydict) (vols : list yaml) : Res pydict :=
  match vols with
  | [] => Ok volumes
  | vol :: rest =>
      volumes' ← add_named_volume volumes vol;
      add_named_volumes volumes' rest
  end.

(** Steps 1 and 2 of [generate]: the dict handed to [yaml.dump]. *)
Definition compose_dict_of (run_config : RunConfig) : Res yaml :=
  '(service_name, service_def) ← select_engine run_config;
  volumes ← match dict_get "volumes" service_def with
            | Some decls => vols ← py_iter decls; add_named_volumes [] vols
            | None => Ok []
            end;
  Ok (YDict [("version", YStr "3.8");
             ("services", YDict [(service_name, YDict service_def)]);
             ("volumes", YDict volumes)]).

(** [DockerComposeGenerator(run_config).generate()] *)
Definition generate (run_config : RunConfig) : Res string :=
  compose_dict ← compose_dict_of run_config;
  Ok (yaml_dump compose_dict).

End Generator.

(** ** The world of [runtime/manager.py] *)

(** What the attributes of a [RuntimeManager] instance can hold. *)
Inductive PyVal : Type :=
| PStr (s : string)
| PConfig (c : RunConfig).

(** The levels of [logging] that the manager uses. *)
Inductive Level : Type := INFO | WARNING | ERROR.

(** Why a child process could not be started, each with what
    [subprocess.run] raises for it: the executable is not found
    ([FileNotFoundError]), it may not be executed ([PermissionError]),
    another error of the operating system ([OSError]), or arguments
    that cannot be passed to a process ([ValueError]). *)
Inductive LaunchError : Type :=
| ExecutableNotFound (msg : string)
| NotExecutable (msg : string)
| LaunchOSError (msg : string)
| BadArguments (msg : string).

Definition launch_exn (why : LaunchError) : Exn :=
  match why with
  | ExecutableNotFound msg => FileNotFoundError msg
  | NotExecutable msg => PermissionError msg
  | LaunchOSError msg => OSError msg
  | BadArguments msg => ValueError msg
  end.

(** How [subprocess.run] can end: the child ran and exited with a code,
    or it could not be started at all. *)
Inductive ProcOutcome : Type :=
| Exited (returncode : Z)
| SpawnFailed (why : LaunchError).

(** What is at a path that is not one of the regular files of the file
    system below: nothing, something else that exists (a directory,
    the current directory for the empty path, a device), or something
    on which [stat] fails with an error other than "not found": a
    directory on the way that may not be searched, or another error (a
    name that is too long). *)
Inductive Elsewhere : Type :=
| Nothing
| Something
| StatDenied (msg : string)
| StatFails (msg : string).

(** How [requests.get] / [requests.post] can end: a response with its
    status code, or one of the exceptions of [requests]. *)
Inductive HttpOutcome : Type :=
| Response (status : Z)
| Failed (k : RequestsError).

(** The calls that leave the process, the log records, and the entries
    into the methods of the manager, in the order they happen. *)
Inductive Event : Type :=
| ECall (method : string)
| ELog (lvl : Level) (msg : string)
| EWrite (path content : string)
| ERun (argv : list string) (outcome : ProcOutcome)
| EGet (url : string) (outcome : HttpOutcome)
| EPost (url : string) (json : pydict) (outcome : HttpOutcome)
| ESleep (ms : Z).

(** The state the methods act on: the instance's attributes, the
    regular files that the process reads and writes (path to content),
    the wall clock of [time.time()] counted in milliseconds, and the
    trace so far. *)
Record St : Type := mkSt {
  self : gmap string PyVal;
  fs : gmap string string;
  clock : Z;
  trace : list Event
}.

(** What lies outside the process.  Every answer may depend on the
    whole state, hence on everything that happened before. *)
Class Env : Type := mkEnv {
  can_open_w : St -> string -> bool;
  run_process : St -> list string -> ProcOutcome;
  http_get : St -> string -> HttpOutcome * N;
  http_post : St -> string -> pydict -> HttpOutcome;
  elsewhere : St -> string -> Elsewhere
}.

(** ** A state and exception monad *)

Definition M (A : Type) : Type := St -> Res A * St.

Definition ret {A} (a : A) : M A := fun st => (Ok a, st).

Definition raise {A} (e : Exn) : M A := fun st => (Raise e, st).

Definition bind {A B} (m : M A) (k : A -> M B) : M B :=
  fun st =>
    match m st with
    | (Ok a, st') => k a st'
    | (Raise e, st') => (Raise e, st')
    | (OutOfFuel, st') => (OutOfFuel, st')
    end.

Declare Scope py_scope.
Delimit Scope py_scope with py.
Notation "x <- m ;; k" := (bind m (fun x => k))
  (at level 100, m at next level, right associativity) : py_scope.
Notation "m ;; k" := (bind m (fun _ => k))
  (at level 100, right associativity) : py_scope.
Open Scope py_scope.

(** [try: body  except C as e: handler e] where [C] is given by its
    [isinstance] test. *)
Definition try_except {A} (body : M A) (C : Exn -> bool) (handler : Exn -> M A) : M A :=
  fun st =>
    match body st with
    | (Raise e, st') => if C e then handler e st' else (Raise e, st')
    | other => other
    end.

Definition lift {A} (r : Res A) : M A := fun st => (r, st).

(** A computation that leaves the attributes of the instance alone. *)
Definition keeps_self {A} (m : M A) : Prop := forall st, self (snd (m st)) = self st.

(** The state after some more events, and after some more time. *)
Definition record (evs : list Event) (st : St) : St :=
  mkSt (self st) (fs st) (clock st) (trace st ++ evs).

Definition tick (ms : Z) (st : St) : St :=
  mkSt (self st) (fs st) (clock st + ms) (trace st).

Definition emit (ev : Event) : M unit := fun st => (Ok tt, record [ev] st).

Definition advance (ms : Z) : M unit := fun st => (Ok tt, tick ms st).

(** [self.attr] *)
Definition getattr (attr : string) : M PyVal :=
  fun st =>
    match self st !! attr with
    | Some v => (Ok v, st)
    | None => (Raise (AttributeError attr), st)
    end.

(** [self.attr = v] *)
Definition setattr (attr : string) (v : PyVal) : M unit :=
  fun st => (Ok tt, mkSt (<[attr := v]> (self st)) (fs st) (clock st) (trace st)).

(** A value used where a path or a program argument is expected. *)
Definition as_str (v : PyVal) : M string :=
  match v with
  | PStr s => ret s
  | PConfig _ => raise (TypeError "expected str, bytes or os.PathLike object")
  end.

(** A value used as the configuration object ([.engine], [.models]). *)
Definition as_config (v : PyVal) : M RunConfig :=
  match v with
  | PConfig c => ret c
  | PStr _ => raise (AttributeError "engine")
  end.

(** [logger.info], [logger.warning], [logger.error] *)
Definition log (lvl : Level) (msg : string) : M unit := emit (ELog lvl msg).

(** [time.time()], in milliseconds *)
Definition time_time : M Z := fun st => (Ok (clock st), st).

(** [time.sleep(seconds)] *)
Definition time_sleep (seconds : Z) : M unit :=
  emit (ESleep (seconds * 1000)) ;; advance (seconds * 1000).

Section Manager.

Context {libs : Libraries} {env : Env}.

(** [Path(p).exists()]: true for a regular file and for anything else
    that is there, false when nothing is, and the error of [stat]
    otherwise ([PermissionError], or another [OSError]). *)
Definition path_exists (p : string) : M bool :=
  fun st =>
    match fs st !! p with
    | Some _ => (Ok true, st)
    | None =>
        match elsewhere st p with
        | Nothing => (Ok false, st)
        | Something => (Ok true, st)
        | StatDenied msg => (Raise (PermissionError msg), st)
        | StatFails msg => (Raise (OSError msg), st)
        end
    end.

(** [with open(path, "w") as f: f.write(content)] *)
Definition write_file (path content : string) : M unit :=
  fun st =>
    if can_open_w st path
    then (Ok tt, record [EWrite path content]
                   (mkSt (self st) (<[path := content]> (fs st)) (clock st) (trace st)))
    else (Raise (OSError path), st).

(** [subprocess.run(argv, check=check)] *)
Definition subprocess_run (argv : list string) (check : bool) : M Z :=
  fun st =>
    let outcome := run_process st argv in
    let st' := record [ERun argv outcome] st in
    match outcome with
    | Exited code =>
        if check && negb (code =? 0)%Z then (Raise (CalledProcessError argv code), st')
        else (Ok code, st')
    | SpawnFailed why => (Raise (launch_exn why), st')
    end.

(** [requests.get(url, timeout=1)]; the attempt takes the time the
    environment says it takes. *)
Definition requests_get (url : string) : M Z :=
  fun st =>
    let '(outcome, took) := http_get st url in
    let st' := record [EGet url outcome] (tick (Z.of_N took) st) in
    match outcome with
    | Response status => (Ok status, st')
    | Failed k => (Raise (RequestException k), st')
    end.

(** [requests.post(url, json=payload)] *)
Definition requests_post (url : string) (payload : pydict) : M Z :=
  fun st =>
    let outcome := http_post st url payload in
    let st' := record [EPost url payload outcome] st in
    match outcome with
    | Response status => (Ok status, st')
    | Failed k => (Raise (RequestException k), st')
    end.

(** [resp.raise_for_status()]: an [HTTPError] for the 4xx and 5xx codes. *)
Definition raise_for_status (status : Z) : M unit :=
  if ((400 <=? status) && (status <? 600))%Z
  then raise (RequestException (ReqHTTPError status))
  else ret tt.

(** [RuntimeManager.__init__(config)]: the attributes of a new instance. *)
Definition init (config : RunConfig) : gmap string PyVal :=
  <["compose_file" := PStr "docker-compose.yml"]> (<["config" := PConfig config]> ∅).

(** [RuntimeManager.generate_deployment(output_path)].  The generator
    is built from [self.run_config]; its [generate] then reads
    [.engine] of what it was given. *)
Definition generate_deployment (output_path : string) : M unit :=
  emit (ECall "generate_deployment") ;;
  setattr "compose_file" (PStr output_path) ;;
  given <- getattr "run_config" ;;
  emit (ECall "DockerComposeGenerator.generate") ;;
  run_config <- as_config given ;;
  yaml_content <- lift (generate run_config) ;;
  write_file output_path yaml_content ;;
  log INFO ("Deployment generated at " +:+ output_path).

(** [RuntimeManager._pull_ollama_model(model_name)] *)
Definition _pull_ollama_model (model_name : string) : M unit :=
  emit (ECall "_pull_ollama_model") ;;
  let base_url := "http://localhost:11434" in
  log INFO ("Requesting Ollama to pull '" +:+ model_name +:+ "' (this may take a while)...") ;;
  try_except
    (resp <- requests_post (base_url +:+ "/api/pull")
               [("name", YStr model_name); ("stream", YScalar "False")] ;;
     raise_for_status resp ;;
     log INFO ("Successfully pulled " +:+ model_name +:+ "."))
    is_RequestException
    (fun e =>
       log ERROR ("Failed to pull model " +:+ model_name +:+ ": " +:+ str_exn e) ;;
       raise e).

(** The body of the loop of [execute_models], for one model. *)
Definition init_model (provider : string) (model : ModelConfig) : M unit :=
  log INFO ("Initializing model: " +:+ name model +:+ "...") ;;
  if String.eqb provider "ollama" then _pull_ollama_model (name model)
  else if String.eqb provider "vllm" then
    log INFO ("vLLM engine should be loading " +:+ name model +:+ " automatically.")
  else log WARNING ("No specific initialization logic for provider: " +:+ provider).

(** [for x in xs: body x] *)
Fixpoint for_each {A} (xs : list A) (body : A -> M unit) : M unit :=
  match xs with
  | [] => ret tt
  | x :: rest => body x ;; for_each rest body
  end.

(** [RuntimeManager.execute_models()] *)
Definition execute_models : M unit :=
  emit (ECall "execute_models") ;;
  config <- (v <- getattr "config" ;; as_config v) ;;
  let provider := provider (engine config) in
  for_each (models config) (init_model provider).

(** The [while] loop of [_wait_for_health]; [fuel] bounds the number of
    times its condition is evaluated. *)
Fixpoint wait_loop (fuel : nat) (start_time timeout_ms : Z) (url : string) : M unit :=
  match fuel with
  | O => fun st => (OutOfFuel, st)
  | S fuel' =>
      now <- time_time ;;
      if (now - start_time <? timeout_ms)%Z then
        try_except
          (requests_get url ;;
           log INFO "Engine is responsive.")
          is_requests_ConnectionError
          (fun _ =>
             time_sleep 2 ;;
             wait_loop fuel' start_time timeout_ms url)
      else raise (TimeoutError "Engine failed to become responsive within timeout.")
  end.

(** Each retry sleeps two seconds, so the condition of the loop is
    evaluated at most this many times. *)
Definition poll_budget (timeout : Z) : nat := Z.to_nat (timeout / 2) + 2.

(** [RuntimeManager._wait_for_health(timeout)], [timeout] in seconds *)
Definition _wait_for_health (timeout : Z) : M unit :=
  emit (ECall "_wait_for_health") ;;
  start_time <- time_time ;;
  config <- (v <- getattr "config" ;; as_config v) ;;
  let port := if String.eqb (provider (engine config)) "ollama" then "11434" else "8000" in
  let url := "http://localhost:" +:+ port in
  log INFO ("Waiting for engine at " +:+ url +:+ "...") ;;
  wait_loop (poll_budget timeout) start_time (timeout * 1000) url.

(** [RuntimeManager.start_environment()] *)
Definition start_environment : M unit :=
  emit (ECall "start_environment") ;;
  compose_file <- (v <- getattr "compose_file" ;; as_str v) ;;
  present <- path_exists compose_file ;;
  if negb present then
    raise (FileNotFoundError
             ("Compose file " +:+ compose_file +:+ " not found. Run generate_deployment() first."))
  else
    log INFO "Starting Docker containers..." ;;
    try_except
      (subprocess_run ["docker-compose"; "-f"; compose_file; "up"; "-d"] true ;;
       log INFO "Containers started successfully." ;;
       _wait_for_health 60 ;;
       execute_models)
      is_CalledProcessError
      (fun e =>
         log ERROR ("Failed to start environment: " +:+ str_exn e) ;;
         raise (RuntimeError "Docker Compose failed to start.")).

(** [RuntimeManager.stop_environment()] *)
Definition stop_environment : M unit :=
  emit (ECall "stop_environment") ;;
  log INFO "Stopping Docker containers..." ;;
  compose_file <- (v <- getattr "compose_file" ;; as_str v) ;;
  subprocess_run ["docker-compose"; "-f"; compose_file; "down"] false ;;
  ret tt.

(** The public operations, as a caller of the manager sequences them. *)
Inductive Call : Type :=
| GenerateDeployment (output_path : string)
| StartEnvironment
| StopEnvironment
| ExecuteModels.

Definition perform (c : Call) : M unit :=
  match c with
  | GenerateDeployment output_path => generate_deployment output_path
  | StartEnvironment => start_environment
  | StopEnvironment => stop_environment
  | ExecuteModels => execute_models
  end.

(** A session on one manager: the calls are made in order, and a
    caller that catches an exception goes on with the next call. *)
Fixpoint session (calls : list Call) (st : St) : St :=
  match calls with
  | [] => st
  | c :: rest => session rest (snd (perform c st))
  end.

End Manager.

(** ** Reading a trace *)

(** How many times a method of the manager was entered. *)
Definition calls_of (method : string) (tr : list Event) : nat :=
  length (List.filter (fun ev => match ev with
                            | ECall m => String.eqb m method
                            | _ => false
                            end) tr).

(** The invocations of external programs, in order. *)
Definition runs_of (tr : list Event) : list (list string) :=
  flat_map (fun ev => match ev with ERun argv _ => [argv] | _ => [] end) tr.

(** The reachability probes, in order. *)
Definition gets_of (tr : list Event) : list (string * HttpOutcome) :=
  flat_map (fun ev => match ev with EGet url o => [(url, o)] | _ => [] end) tr.

(** The requests that were posted, with what came back, in order. *)
Definition posts_of (tr : list Event) : list (string * pydict * HttpOutcome) :=
  flat_map (fun ev => match ev with
                      | EPost url json o => [(url, json, o)]
                      | _ => []
                      end) tr.

(** The exception that a pull with this outcome ends in, if any: the
    one [requests.post] raised, or the [HTTPError] that
    [raise_for_status] makes of a 4xx or 5xx response. *)
Definition pull_failure (o : HttpOutcome) : option Exn :=
  match o with
  | Failed k => Some (RequestException k)
  | Response status =>
      if ((400 <=? status) && (status <? 600))%Z
      then Some (RequestException (ReqHTTPError status))
      else None
  end.

(** The trace of a run of failed probes, each followed by its sleep. *)
Definition retry_events (url : string) (ks : list RequestsError) : list Event :=
  flat_map (fun k => [EGet url (Failed k); ESleep 2000]) ks.

(** ** Sample instances

    Concrete adapters, serializer and environments on which the
    statements below are exercised.  They are plain definitions, passed
    explicitly where they are used. *)

Definition demo_ollama (conf : pydict) : pydict :=
  [("image", YStr "ollama/ollama:latest");
   ("ports", YList [YStr "11434:11434"]);
   ("volumes", YList [YStr "data:/var/lib/x";
                      YStr "/host/path:/var/lib/x";
                      YStr "~/path:/var/lib/x"])].

Definition demo_vllm (conf : pydict) : pydict :=
  [("image", YStr "vllm/vllm-openai:latest");
   ("ports", YList [YStr "8000:8000"]);
   ("volumes", YList [YStr "~/.cache/huggingface:/root/.cache/huggingface"]);
   ("command", YList [YStr "--model";
                      default (YStr "facebook/opt-125m") (dict_get "model" conf)])].

Definition demo_dump (y : yaml) : string := String.concat "," (yaml_strings y).

Definition demo_str_exn (e : Exn) : string :=
  match e with
  | CalledProcessError _ _ => "Command returned non-zero exit status."
  | RequestException _ => "request failed"
  | _ => "error"
  end.

Definition demo_libs : Libraries :=
  mkLibraries demo_ollama demo_vllm demo_dump demo_str_exn.

Definition demo_config (p : string) (names : list string) : RunConfig :=
  mkRunConfig (mkEngineConfig p []) (map (fun n => mkModelConfig n []) names).

(** The name carried by the payload of a pull request. *)
Definition payload_name (payload : pydict) : string :=
  match dict_get "name" payload with
  | Some (YStr n) => n
  | _ => ""
  end.

(** Everything works: the runtime starts, the port answers at once,
    every pull succeeds. *)
Definition env_up : Env :=
  mkEnv (fun _ _ => true) (fun _ _ => Exited 0)
        (fun _ _ => (Response 200, 5%N)) (fun _ _ _ => Response 200) (fun _ _ => Nothing).

(** The container runtime exits with status 1. *)
Definition env_compose_fails : Env :=
  mkEnv (fun _ _ => true) (fun _ _ => Exited 1)
        (fun _ _ => (Response 200, 5%N)) (fun _ _ _ => Response 200) (fun _ _ => Nothing).

(** The port accepts the connection but the read times out. *)
Definition env_read_timeout : Env :=
  mkEnv (fun _ _ => true) (fun _ _ => Exited 0)
        (fun _ _ => (Failed ReqReadTimeout, 1000%N)) (fun _ _ _ => Response 200) (fun _ _ => Nothing).

(** The port refuses every connection. *)
Definition env_refusing : Env :=
  mkEnv (fun _ _ => true) (fun _ _ => Exited 0)
        (fun _ _ => (Failed ReqConnectionError, 0%N)) (fun _ _ _ => Response 200) (fun _ _ => Nothing).

(** The registry does not know the model called ["missing"]. *)
Definition env_missing_model : Env :=
  mkEnv (fun _ _ => true) (fun _ _ => Exited 0)
        (fun _ _ => (Response 200, 5%N))
        (fun _ _ payload =>
           if String.eqb (payload_name payload) "missing" then Response 404
           else Response 200)
        (fun _ _ => Nothing).

(** A new manager in an empty working directory at time 0. *)
Definition fresh (config : RunConfig) (files : gmap string string) : St :=
  mkSt (init config) files 0 [].

(** A name of [n] letters, used to pick a model name that a given
    service definition cannot contain. *)
Fixpoint long_name (n : nat) : string :=
  match n with
  | O => EmptyString
  | S n' => String "m" (long_name n')
  end.

(** The total length of the strings of a list. *)
Definition total_length (l : list string) : nat :=
  fold_right (fun s n => (String.length s + n)%nat) O l.

(** A new manager for ollama with three models, the second of which
    the registry does not have. *)
Definition three_models : RunConfig :=
  demo_config "ollama" ["llama3"; "missing"; "mistral"].

(** A new manager in an empty directory, and one in a directory where
    an earlier deployment left its manifest behind. *)
Definition st_new : St := fresh three_models ∅.

Definition st_leftover : St :=
  fresh three_models {["docker-compose.yml" := "version: '3.8'"]}.

(** A configuration for a provider that has no adapter. *)
Definition tgi_config : RunConfig := demo_config "tgi" ["llama3"; "mistral"].

(** ** Beyond the lifecycle claims: more of the generator *)

(** The left-hand side of a declaration as a plain string, the
    [vol.split(":")[0]] of a [str]. *)
Definition lhs_of (decl : string) : string :=
  match py_split ":" decl with
  | piece :: _ => piece
  | [] => EmptyString
  end.

(** The names of a list in order, each at its first occurrence only:
    the key order of a dict filled by [d[name] = ...] in that order. *)
Fixpoint first_occurrences (names : list string) : list string :=
  match names with
  | [] => []
  | n :: rest => n :: List.filter (fun m => negb (String.eqb m n)) (first_occurrences rest)
  end.

(** ** Beyond the lifecycle claims: sessions *)

(** The [output_path] of the last [generate_deployment] among the
    calls, if there is one. *)
Fixpoint last_output_path (calls : list Call) : option string :=
  match calls with
  | [] => None
  | GenerateDeployment output_path :: rest =>
      match last_output_path rest with
      | Some later => Some later
      | None => Some output_path
      end
  | _ :: rest => last_output_path rest
  end.

(** The files that the process itself wrote, in order. *)
Definition writes_of (tr : list Event) : list string :=
  flat_map (fun ev => match ev with EWrite path _ => [path] | _ => [] end) tr.

(** A computation in which the process writes no file: whatever it
    adds to the trace holds no write. *)
Definition writes_nothing {A} (m : M A) : Prop :=
  forall st, exists evs, trace (snd (m st)) = trace st ++ evs /\ writes_of evs = [].

(** The exceptions other than the two that [start_environment]
    handles or raises itself. *)
Definition passes_through (e : Exn) : bool :=
  match e with
  | CalledProcessError _ _ => false
  | RuntimeError _ => false
  | _ => true
  end.

(** A computation that raises none of those two. *)
Definition raises_neither {A} (m : M A) : Prop :=
  forall st e st', m st = (Raise e, st') -> passes_through e = true.

(** The port refuses the first three connections and answers the
    fourth; each attempt takes 100 ms. *)
Definition env_slow_start : Env :=
  mkEnv (fun _ _ => true) (fun _ _ => Exited 0)
        (fun st _ => if (length (gets_of (trace st)) <? 3)%nat
                     then (Failed ReqConnectionError, 100%N)
                     else (Response 200, 100%N))
        (fun _ _ _ => Response 200) (fun _ _ => Nothing).

(** The container runtime is not installed. *)
Definition env_no_docker : Env :=
  mkEnv (fun _ _ => true) (fun _ _ => SpawnFailed (ExecutableNotFound "docker-compose"))
        (fun _ _ => (Response 200, 5%N)) (fun _ _ _ => Response 200) (fun _ _ => Nothing).

(** A [docker-compose] is on the path, and may not be executed. *)
Definition env_docker_not_executable : Env :=
  mkEnv (fun _ _ => true) (fun _ _ => SpawnFailed (NotExecutable "docker-compose"))
        (fun _ _ => (Response 200, 5%N)) (fun _ _ _ => Response 200) (fun _ _ => Nothing).

(** ** [cli.py]: the [deploy] command *)

(** [open(config_path)], [json.load(f)] and the construction of
    [RunConfig] from the loaded data: the validated configuration, or
    the exception of whichever of the three fails. *)
Class ConfigLoader : Type := mkConfigLoader {
  load_run_config : St -> string -> Exn + RunConfig
}.

(** [console.print(text)] of Rich, in a given state of the run: [None]
    when the text is rendered and printed, the exception when it raises
    (a [MarkupError] for a closing tag without its opening one, an
    error of the output stream). *)
Class Console : Type := mkConsole {
  console_print : St -> string -> option Exn
}.

(** How a command ends: it returns, it raises [typer.Exit(code)], or it
    raises another exception. *)
Inductive CliOutcome : Type :=
| Returned
| Exit (code : Z)
| Raised (e : Exn)
| CliOutOfFuel.

Section Cli.

Context {libs : Libraries} {env : Env} {loader : ConfigLoader} {console : Console}.

(** [os.path.exists(p)]: like [Path(p).exists()], but false where
    [stat] fails. *)
Definition os_path_exists (p : string) (st : St) : bool :=
  match fs st !! p with
  | Some _ => true
  | None => match elsewhere st p with Something => true | _ => false end
  end.

(** The [try] block of [deploy]: its outcome, the lines it printed, and
    the state with the manager it built. *)
Definition deploy_try (config_path : string) (dry_run : bool) (st : St)
  : Res unit * list string * St :=
  match load_run_config st config_path with
  | inl e => (Raise e, [], st)
  | inr run_config =>
      let manager := mkSt (init run_config) (fs st) (clock st) (trace st) in
      let output_file := "docker-compose.yml" in
      match generate_deployment output_file manager with
      | (Ok _, st1) =>
          let generated :=
            "[green]✔ Deployment file generated at: " +:+ output_file +:+ "[/green]" in
          match console_print st1 generated with
          | Some e => (Raise e, [], st1)
          | None =>
              if negb dry_run then
                let starting := "[yellow]Starting environment...[/yellow]" in
                match console_print st1 starting with
                | Some e => (Raise e, [generated], st1)
                | None =>
                    match start_environment st1 with
                    | (Ok _, st2) =>
                        let up :=
                          "[bold green]✔ Environment is up and running![/bold green]" in
                        match console_print st2 up with
                        | Some e => (Raise e, [generated; starting], st2)
                        | None => (Ok tt, [generated; starting; up], st2)
                        end
                    | (Raise e, st2) => (Raise e, [generated; starting], st2)
                    | (OutOfFuel, st2) => (OutOfFuel, [generated; starting], st2)
                    end
                end
              else (Ok tt, [generated], st1)
          end
      | (Raise e, st1) => (Raise e, [], st1)
      | (OutOfFuel, st1) => (OutOfFuel, [], st1)
      end
  end.

(** [deploy(config_path, dry_run)]: how it ends, what it printed on the
    console, and the state it leaves.  The two first [console.print]
    are outside the [try], the last one is in the handler: an exception
    of theirs leaves the command. *)
Definition deploy (config_path : string) (dry_run : bool) (st : St)
  : CliOutcome * list string * St :=
  if negb (os_path_exists config_path st) then
    let not_found :=
      "[bold red]Error:[/bold red] Config file '" +:+ config_path +:+ "' not found." in
    match console_print st not_found with
    | Some e => (Raised e, [], st)
    | None => (Exit 1, [not_found], st)
    end
  else
    let loading :=
      "[bold blue]Loading configuration from " +:+ config_path +:+ "...[/bold blue]" in
    match console_print st loading with
    | Some e => (Raised e, [], st)
    | None =>
        match deploy_try config_path dry_run st with
        | (Ok _, printed, st') => (Returned, loading :: printed, st')
        | (Raise e, printed, st') =>
            let failed := "[bold red]Deployment failed:[/bold red] " +:+ str_exn e in
            match console_print st' failed with
            | Some e' => (Raised e', loading :: printed, st')
            | None => (Exit 1, loading :: printed ++ [failed], st')
            end
        | (OutOfFuel, printed, st') => (CliOutOfFuel, loading :: printed, st')
        end
    end.

End Cli.

(** A loader that accepts every file as the three-model
    configuration, a console that prints everything, and one on which
    a closing tag without its opening one raises. *)
Definition demo_loader : ConfigLoader := mkConfigLoader (fun _ _ => inr three_models).

Definition plain_console : Console := mkConsole (fun _ _ => None).

Definition strict_console : Console :=
  mkConsole (fun _ text =>
               if py_in_str "[/x]" text
               then Some (OtherException "MarkupError" "closing tag '[/x]' has nothing to close")
               else None).

(** The recorded path is the empty one, which [Path] reads as the
    current directory: it exists, and no manifest is there. *)
Definition env_empty_path : Env :=
  mkEnv (fun _ _ => true) (fun _ _ => Exited 1)
        (fun _ _ => (Response 200, 5%N)) (fun _ _ _ => Response 200)
        (fun _ p => if String.eqb p "" then Something else Nothing).

(** ** More sample instances *)

(** An ollama adapter whose service has no volumes, and one that
    declares its second volume in the long syntax. *)
Definition no_volumes_libs : Libraries :=
  mkLibraries (fun _ => [("image", YStr "ollama/ollama:latest")])
              demo_vllm demo_dump demo_str_exn.

Definition long_syntax_libs : Libraries :=
  mkLibraries
    (fun _ => [("image", YStr "ollama/ollama:latest");
               ("volumes",
                YList [YStr "data:/var/lib/x";
                       YDict [("type", YStr "bind"); ("source", YStr "/host");
                              ("target", YStr "/x")];
                       YStr "cache:/c"])])
    demo_vllm demo_dump demo_str_exn.

(** An ollama adapter that declares a volume twice. *)
Definition repeated_volume_libs : Libraries :=
  mkLibraries
    (fun _ => [("volumes",
                YList [YStr "models:/m"; YStr "./cfg:/etc/x"; YStr "cache:/c";
                       YStr "models:/backup"])])
    demo_vllm demo_dump demo_str_exn.

(** A configuration for vllm. *)
Definition vllm_config : RunConfig := demo_config "vllm" ["mistral-7b"; "phi-3"].

(** ** Strings and dicts *)

Lemma py_split_head sep s :
  exists piece pieces,
    py_split sep s = piece :: pieces /\
    py_in_char sep piece = false /\
    (s = piece \/ exists rest, s = piece +:+ String sep rest).
Proof.
  induction s as [|c rest IH]; simpl.
  - exists EmptyString, []. auto.
  - destruct (Ascii.eqb c sep) eqn:Hc.
    + apply Ascii.eqb_eq in Hc. subst c.
      exists EmptyString, (py_split sep rest). split; [done|]. split; [done|].
      right. by exists rest.
    + destruct IH as (piece & pieces & -> & Hno & Hshape).
      exists (String c piece), pieces. split; [done|]. split.
      * simpl. by rewrite Hc.
      * destruct Hshape as [->|[rest' ->]]; [by left|]. right. by exists rest'.
Qed.

Lemma dict_get_set_eq k v d : dict_get k (dict_set k v d) = Some v.
Proof.
  induction d as [|[k' v'] d IH]; simpl.
  - by rewrite String.eqb_refl.
  - destruct (String.eqb k' k) eqn:Hk; simpl; by rewrite Hk.
Qed.

Lemma dict_get_set_ne k k' v d : k <> k' -> dict_get k' (dict_set k v d) = dict_get k' d.
Proof.
  intros Hne. induction d as [|[k0 v0] d IH]; simpl.
  - destruct (String.eqb k k') eqn:Hk; [|done]. by apply String.eqb_eq in Hk.
  - destruct (String.eqb k0 k) eqn:Hk; simpl.
    + apply String.eqb_eq in Hk. subst k0.
      destruct (String.eqb k k') eqn:Hk'; [|done]. by apply String.eqb_eq in Hk'.
    + by rewrite IH.
Qed.

Lemma prefix_length p s : String.prefix p s = true -> (String.length p <= String.length s)%nat.
Proof.
  revert p. induction s as [|d s IH]; intros [|c p]; simpl; try done; try lia.
  destruct (ascii_dec c d); [|done]. intros H%IH. lia.
Qed.

Lemma py_in_str_length p s : py_in_str p s = true -> (String.length p <= String.length s)%nat.
Proof.
  induction s as [|d s IH]; simpl.
  - rewrite orb_false_r. apply (prefix_length p EmptyString).
  - intros [H|H]%orb_true_iff.
    + apply (prefix_length p (String d s)) in H. simpl in H. lia.
    + apply IH in H. lia.
Qed.

Lemma long_name_length n : String.length (long_name n) = n.
Proof. induction n; simpl; congruence. Qed.

Lemma total_length_bound l s : In s l -> (String.length s <= total_length l)%nat.
Proof.
  induction l as [|x l IH]; simpl; [done|].
  intros [->|H]; [lia|]. apply IH in H. lia.
Qed.

Lemma not_mentioned_when_longer name y :
  (total_length (yaml_strings y) < String.length name)%nat -> mentions name y = false.
Proof.
  intros Hlen. unfold mentions.
  destruct (existsb (py_in_str name) (yaml_strings y)) eqn:Hex; [|done].
  apply existsb_exists in Hex as (s & Hin & Hocc).
  apply py_in_str_length in Hocc. apply total_length_bound in Hin. lia.
Qed.

(** ** The generator *)

Lemma vol_name_of_total decl :
  exists lhs,
    vol_name_of decl = Ok lhs /\
    py_in_char ":" lhs = false /\
    (decl = lhs \/ exists rhs, decl = lhs +:+ ":" +:+ rhs).
Proof.
  unfold vol_name_of.
  destruct (py_split_head ":" decl) as (piece & pieces & -> & Hno & Hshape).
  exists piece. split; [done|]. split; [done|]. exact Hshape.
Qed.

Lemma add_named_volumes_decls decls : forall volumes,
  exists volumes',
    add_named_volumes volumes (map YStr decls) = Ok volumes' /\
    forall name,
      ((exists decl, In decl decls /\ vol_name_of decl = Ok name /\
                     is_named_volume name = true) /\
       dict_get name volumes' = Some (YDict []))
      \/
      (~ (exists decl, In decl decls /\ vol_name_of decl = Ok name /\
                       is_named_volume name = true) /\
       dict_get name volumes' = dict_get name volumes).
Proof.
  induction decls as [|decl decls IH]; intros volumes; simpl.
  - exists volumes. split; [done|]. intros name. right. split; [|done].
    intros (d & [] & _).
  - destruct (vol_name_of_total decl) as (lhs & Hlhs & _). rewrite Hlhs. simpl.
    destruct (is_named_volume lhs) eqn:Hnamed; simpl.
    + destruct (IH (dict_set lhs (YDict []) volumes)) as (volumes' & Hrun & Hkeys).
      exists volumes'. split; [done|]. intros name.
      destruct (Hkeys name) as [[(d & Hd & Hn & Hb) Hget]|[Hnot Hget]].
      * left. split; [|done]. exists d. auto.
      * destruct (String.eqb_spec lhs name) as [->|Hne].
        -- left. split; [exists decl; auto|]. by rewrite Hget, dict_get_set_eq.
        -- right. split; [|by rewrite Hget, dict_get_set_ne].
           intros (d & [<-|Hd] & Hn & Hb); [congruence|]. apply Hnot. eauto.
    + destruct (IH volumes) as (volumes' & Hrun & Hkeys).
      exists volumes'. split; [done|]. intros name.
      destruct (Hkeys name) as [[(d & Hd & Hn & Hb) Hget]|[Hnot Hget]].
      * left. split; [|done]. exists d. auto.
      * right. split; [|done].
        intros (d & [<-|Hd] & Hn & Hb); [congruence|]. apply Hnot. eauto.
Qed.

Section GeneratorFacts.

Context {libs : Libraries}.

Lemma select_engine_unsupported run_config :
  provider (engine run_config) <> "ollama" ->
  provider (engine run_config) <> "vllm" ->
  select_engine run_config =
    Raise (ValueError ("Unsupported provider: " +:+ provider (engine run_config))).
Proof.
  intros Ho Hv. unfold select_engine.
  destruct (String.eqb_spec (provider (engine run_config)) "ollama"); [done|].
  destruct (String.eqb_spec (provider (engine run_config)) "vllm"); done.
Qed.

Lemma generate_unsupported run_config :
  provider (engine run_config) <> "ollama" ->
  provider (engine run_config) <> "vllm" ->
  generate run_config =
    Raise (ValueError ("Unsupported provider: " +:+ provider (engine run_config))).
Proof.
  intros Ho Hv. unfold generate, compose_dict_of.
  by rewrite select_engine_unsupported.
Qed.

(** C8: for a service definition whose volume declarations are [decls],
    the manifest's top-level [volumes] holds the left-hand side of a
    declaration (the part before its first colon) exactly when that
    left-hand side contains neither ["/"] nor ["~"]; nothing else is
    registered, and every registered volume is declared as [{}]. *)
Theorem generate_registers_bare_volume_names
    (run_config : RunConfig) (service_name : string) (service_def : pydict)
    (decls : list string) :
  select_engine run_config = Ok (service_name, service_def) ->
  dict_get "volumes" service_def = Some (YList (map YStr decls)) ->
  exists volumes,
    generate run_config =
      Ok (yaml_dump
            (YDict [("version", YStr "3.8");
                    ("services", YDict [(service_name, YDict service_def)]);
                    ("volumes", YDict volumes)])) /\
    (forall decl, In decl decls ->
       exists lhs,
         vol_name_of decl = Ok lhs /\
         py_in_char ":" lhs = false /\
         (decl = lhs \/ exists rhs, decl = lhs +:+ ":" +:+ rhs) /\
         (dict_mem lhs volumes = true <->
          py_in_char "/" lhs = false /\ py_in_char "~" lhs = false)) /\
    (forall name, dict_mem name volumes = true ->
       dict_get name volumes = Some (YDict []) /\
       exists decl, In decl decls /\ vol_name_of decl = Ok name).
Proof.
  intros Hsel Hvols.
  destruct (add_named_volumes_decls decls []) as (volumes & Hrun & Hkeys).
  exists volumes. split; [|split].
  - unfold generate, compose_dict_of. rewrite Hsel. simpl.
    rewrite Hvols. simpl. by rewrite Hrun.
  - intros decl Hin.
    destruct (vol_name_of_total decl) as (lhs & Hlhs & Hcolon & Hshape).
    exists lhs. split; [done|]. split; [done|]. split; [done|].
    unfold dict_mem.
    destruct (Hkeys lhs) as [[(d & Hd & Hn & Hb) ->]|[Hnot ->]]; simpl.
    + split; [intros _|done].
      unfold is_named_volume in Hb. apply andb_true_iff in Hb as [H1 H2].
      by apply negb_true_iff in H1, H2.
    + split; [done|]. intros [H1 H2]. exfalso. apply Hnot.
      exists decl. split; [done|]. split; [done|].
      unfold is_named_volume. by rewrite H1, H2.
  - intros name. unfold dict_mem.
    destruct (Hkeys name) as [[(d & Hd & Hn & Hb) Hget]|[Hnot Hget]];
      rewrite Hget; simpl; [|done].
    intros _. split; [done|]. exists d. auto.
Qed.

(** C2, as the code has it: the vllm adapter is handed the engine
    settings only, so the generated manifest is the same whatever the
    configured models are, and for every engine configuration there is
    a model name that the generated service definition does not
    contain. *)
Theorem vllm_service_definition_ignores_models (e : EngineConfig) :
  provider e = "vllm" ->
  (forall ms ms',
     generate (mkRunConfig e ms) =
     generate (mkRunConfig e ms')) /\
  exists m service_def,
    select_engine (mkRunConfig e [m]) = Ok ("vllm", service_def) /\
    mentions (name m) (YDict service_def) = false.
Proof.
  intros Hp. split; [done|].
  set (sd := VLLMEngine (model_dump e)).
  exists (mkModelConfig (long_name (S (total_length (yaml_strings (YDict sd))))) []), sd.
  split.
  - unfold select_engine. simpl. by rewrite Hp.
  - apply not_mentioned_when_longer. cbn [name]. rewrite long_name_length. lia.
Qed.

End GeneratorFacts.

(** ** The monad *)

Lemma record_nil st : record [] st = st.
Proof. destruct st. unfold record. simpl. by rewrite app_nil_r. Qed.

Lemma record_record evs evs' st : record evs' (record evs st) = record (evs ++ evs') st.
Proof. unfold record. simpl. by rewrite app_assoc. Qed.

Lemma keeps_self_ret {A} (a : A) : keeps_self (ret a).
Proof. done. Qed.

Lemma keeps_self_raise {A} e : keeps_self (@raise A e).
Proof. done. Qed.

Lemma keeps_self_lift {A} (r : Res A) : keeps_self (lift r).
Proof. done. Qed.

Lemma keeps_self_emit ev : keeps_self (emit ev).
Proof. done. Qed.

Lemma keeps_self_log lvl msg : keeps_self (log lvl msg).
Proof. done. Qed.

Lemma keeps_self_advance ms : keeps_self (advance ms).
Proof. done. Qed.

Lemma keeps_self_time_time : keeps_self time_time.
Proof. done. Qed.

Lemma keeps_self_path_exists {env : Env} p : keeps_self (path_exists p).
Proof.
  intros st. unfold path_exists.
  destruct (fs st !! p); [done|]. by destruct (elsewhere st p).
Qed.

Lemma keeps_self_getattr attr : keeps_self (getattr attr).
Proof. intros st. unfold getattr. by destruct (self st !! attr). Qed.

Lemma keeps_self_as_str v : keeps_self (as_str v).
Proof. by destruct v. Qed.

Lemma keeps_self_as_config v : keeps_self (as_config v).
Proof. by destruct v. Qed.

Lemma keeps_self_bind {A B} (m : M A) (k : A -> M B) :
  keeps_self m -> (forall a, keeps_self (k a)) -> keeps_self (bind m k).
Proof.
  intros Hm Hk st. unfold bind. specialize (Hm st).
  destruct (m st) as [[a|e|] st']; simpl in *; [|done..].
  by rewrite Hk.
Qed.

Lemma keeps_self_try_except {A} (body : M A) C handler :
  keeps_self body -> (forall e, keeps_self (handler e)) -> keeps_self (try_except body C handler).
Proof.
  intros Hb Hh st. unfold try_except. specialize (Hb st).
  destruct (body st) as [[a|e|] st']; simpl in *; [done| |done].
  destruct (C e); [|done]. by rewrite Hh.
Qed.

Lemma keeps_self_time_sleep s : keeps_self (time_sleep s).
Proof. done. Qed.

Create HintDb keeps discriminated.
#[local] Hint Resolve keeps_self_ret keeps_self_raise keeps_self_lift keeps_self_emit
  keeps_self_log keeps_self_advance keeps_self_time_time keeps_self_path_exists
  keeps_self_getattr keeps_self_as_str keeps_self_as_config keeps_self_time_sleep : keeps.

Ltac keeps :=
  repeat first
    [ progress auto with keeps
    | apply keeps_self_bind; [|intros ?]
    | apply keeps_self_try_except; [|intros ?]
    | match goal with |- keeps_self (if ?b then _ else _) => destruct b end ].

Section ManagerFacts.

Context {libs : Libraries} {env : Env}.

Lemma keeps_self_write_file path content : keeps_self (write_file path content).
Proof. intros st. unfold write_file. by destruct (can_open_w st path). Qed.

Lemma keeps_self_subprocess_run argv check : keeps_self (subprocess_run argv check).
Proof.
  intros st. unfold subprocess_run.
  destruct (run_process st argv) as [code|msg]; [|done].
  by destruct (check && negb (code =? 0)).
Qed.

Lemma keeps_self_requests_get url : keeps_self (requests_get url).
Proof.
  intros st. unfold requests_get.
  destruct (http_get st url) as [[status|k] took]; done.
Qed.

Lemma keeps_self_requests_post url payload : keeps_self (requests_post url payload).
Proof.
  intros st. unfold requests_post.
  destruct (http_post st url payload) as [status|k]; done.
Qed.

Lemma keeps_self_raise_for_status status : keeps_self (raise_for_status status).
Proof. unfold raise_for_status. by destruct (_ && _). Qed.

#[local] Hint Resolve keeps_self_write_file keeps_self_subprocess_run
  keeps_self_requests_get keeps_self_requests_post keeps_self_raise_for_status : keeps.

Lemma keeps_self_for_each {A} (xs : list A) body :
  (forall x, keeps_self (body x)) -> keeps_self (for_each xs body).
Proof. intros Hb. induction xs as [|x xs IH]; simpl; keeps. Qed.

Lemma keeps_self_pull model_name : keeps_self (_pull_ollama_model model_name).
Proof. unfold _pull_ollama_model. keeps. Qed.

Lemma keeps_self_init_model provider model : keeps_self (init_model provider model).
Proof. unfold init_model. keeps. Qed.

Lemma keeps_self_wait_loop fuel start_time timeout_ms url :
  keeps_self (wait_loop fuel start_time timeout_ms url).
Proof. induction fuel as [|fuel IH]; simpl; [done|]. keeps. Qed.

#[local] Hint Resolve keeps_self_for_each keeps_self_init_model keeps_self_wait_loop : keeps.

Lemma keeps_self_execute_models : keeps_self execute_models.
Proof. unfold execute_models. keeps. Qed.

Lemma keeps_self_wait_for_health timeout : keeps_self (_wait_for_health timeout).
Proof. unfold _wait_for_health. keeps. Qed.

#[local] Hint Resolve keeps_self_execute_models keeps_self_wait_for_health : keeps.

Lemma keeps_self_start_environment : keeps_self start_environment.
Proof. unfold start_environment. keeps. Qed.

Lemma keeps_self_stop_environment : keeps_self stop_environment.
Proof. unfold stop_environment. keeps. Qed.

(** [generate_deployment] sets [compose_file] and nothing else, however
    it ends. *)
Lemma generate_deployment_self output_path st :
  self (snd (generate_deployment output_path st)) =
    <["compose_file" := PStr output_path]> (self st).
Proof.
  unfold generate_deployment.
  unfold bind at 1. simpl. unfold bind at 1. simpl.
  match goal with |- self (snd (?m ?s)) = _ =>
    change (<["compose_file":=PStr output_path]> (self st)) with (self s);
    assert (keeps_self m) as Hk; [|apply Hk]
  end.
  keeps.
Qed.

(** No call gives the instance an attribute other than the two that
    [__init__] creates. *)
Lemma session_attributes calls : forall st attr,
  attr <> "compose_file" ->
  self (session calls st) !! attr = self st !! attr.
Proof.
  induction calls as [|c calls IH]; intros st attr Hattr; simpl; [done|].
  rewrite IH by done. destruct c; simpl.
  - rewrite generate_deployment_self. by rewrite lookup_insert_ne.
  - by rewrite keeps_self_start_environment.
  - by rewrite keeps_self_stop_environment.
  - by rewrite keeps_self_execute_models.
Qed.

Lemma init_attributes config attr :
  init config !! attr =
    if String.eqb attr "compose_file" then Some (PStr "docker-compose.yml")
    else if String.eqb attr "config" then Some (PConfig config)
    else None.
Proof.
  unfold init.
  destruct (String.eqb_spec attr "compose_file") as [->|H1].
  - by rewrite lookup_insert_eq.
  - rewrite lookup_insert_ne by done.
    destruct (String.eqb_spec attr "config") as [->|H2].
    + by rewrite lookup_insert_eq.
    + by rewrite lookup_insert_ne.
Qed.

(** What [generate_deployment] does on an instance without the
    attribute [run_config]. *)
Lemma generate_deployment_without_run_config output_path st :
  self st !! "run_config" = None ->
  generate_deployment output_path st =
    (Raise (AttributeError "run_config"),
     record [ECall "generate_deployment"]
       (mkSt (<["compose_file" := PStr output_path]> (self st))
             (fs st) (clock st) (trace st))).
Proof.
  intros Hnone. unfold generate_deployment, bind, emit, setattr, getattr. simpl.
  rewrite lookup_insert_ne by done. by rewrite Hnone.
Qed.

(** What [generate_deployment] would do on an instance that did have
    the attribute: the generator runs, and its error or the write
    follows. *)
Lemma generate_deployment_with_run_config output_path st run_config :
  self st !! "run_config" = Some (PConfig run_config) ->
  let st1 := record [ECall "generate_deployment"; ECall "DockerComposeGenerator.generate"]
               (mkSt (<["compose_file" := PStr output_path]> (self st))
                     (fs st) (clock st) (trace st)) in
  generate_deployment output_path st =
    match generate run_config with
    | Ok yaml_content =>
        if can_open_w st1 output_path
        then (Ok tt,
              record [EWrite output_path yaml_content;
                      ELog INFO ("Deployment generated at " +:+ output_path)]
                (mkSt (self st1) (<[output_path := yaml_content]> (fs st1))
                      (clock st1) (trace st1)))
        else (Raise (OSError output_path), st1)
    | Raise e => (Raise e, st1)
    | OutOfFuel => (OutOfFuel, st1)
    end.
Proof.
  intros Hattr. unfold generate_deployment, bind, emit, setattr, getattr. simpl.
  rewrite lookup_insert_ne by done. rewrite Hattr. simpl.
  unfold lift, write_file, log, emit, record. simpl.
  destruct (generate run_config) as [text|e|];
    rewrite <- ?app_assoc; simpl; try done.
  destruct (can_open_w _ output_path); simpl; by rewrite <- ?app_assoc.
Qed.

Lemma calls_of_app method tr tr' :
  calls_of method (tr ++ tr') = (calls_of method tr + calls_of method tr')%nat.
Proof. unfold calls_of. by rewrite List.filter_app, length_app. Qed.

Lemma runs_of_app tr tr' : runs_of (tr ++ tr') = runs_of tr ++ runs_of tr'.
Proof. apply flat_map_app. Qed.

Lemma gets_of_app tr tr' : gets_of (tr ++ tr') = gets_of tr ++ gets_of tr'.
Proof. apply flat_map_app. Qed.

Lemma posts_of_app tr tr' : posts_of (tr ++ tr') = posts_of tr ++ posts_of tr'.
Proof. apply flat_map_app. Qed.

(** C1, as the code has it: [__init__] stores the configuration under
    [config], [generate_deployment] reads [run_config].  Whatever calls
    were made on a manager before, [generate_deployment] records the
    path and then raises [AttributeError]: the generator is not entered
    and no file is written. *)
Theorem generate_deployment_raises_AttributeError
    (config : RunConfig) (files : gmap string string) (now : Z) (tr : list Event)
    (calls : list Call) (output_path : string) :
  let st := session calls (mkSt (init config) files now tr) in
  generate_deployment output_path st =
    (Raise (AttributeError "run_config"),
     record [ECall "generate_deployment"]
       (mkSt (<["compose_file" := PStr output_path]> (self st))
             (fs st) (clock st) (trace st))).
Proof.
  intros st. apply generate_deployment_without_run_config.
  unfold st. rewrite session_attributes by done. simpl.
  by rewrite init_attributes.
Qed.

(** C3, as the code has it: for a provider that is neither ["ollama"]
    nor ["vllm"] the generator itself raises its unsupported-provider
    [ValueError], but [generate_deployment] on a new manager stops
    earlier, with [AttributeError], and that is the error its caller
    sees; no file is written either way. *)
Theorem unsupported_provider_error_is_masked
    (config : RunConfig) (files : gmap string string) (now : Z) (tr : list Event)
    (output_path : string) :
  provider (engine config) <> "ollama" ->
  provider (engine config) <> "vllm" ->
  generate config =
    Raise (ValueError ("Unsupported provider: " +:+ provider (engine config))) /\
  generate_deployment output_path (mkSt (init config) files now tr) =
    (Raise (AttributeError "run_config"),
     mkSt (<["compose_file" := PStr output_path]> (init config)) files now
          (tr ++ [ECall "generate_deployment"])).
Proof.
  intros Ho Hv. split; [by apply generate_unsupported|].
  rewrite generate_deployment_without_run_config; [done|].
  simpl. by rewrite init_attributes.
Qed.

(** C9: whenever [generate_deployment] raises, the instance already
    holds the new path in [compose_file]; unless that was the recorded
    path before, the attributes are not what they were. *)
Theorem generate_deployment_records_path_before_failing
    (output_path : string) (st st' : St) (e : Exn) :
  generate_deployment output_path st = (Raise e, st') ->
  self st' !! "compose_file" = Some (PStr output_path) /\
  (self st !! "compose_file" <> Some (PStr output_path) -> self st' <> self st).
Proof.
  intros Hrun.
  assert (self st' = <["compose_file" := PStr output_path]> (self st)) as Hself.
  { rewrite <- generate_deployment_self. by rewrite Hrun. }
  split.
  - rewrite Hself. apply lookup_insert_eq.
  - intros Hold Heq. apply Hold. rewrite <- Heq, Hself. apply lookup_insert_eq.
Qed.

(** C6, amended: when nothing exists at the recorded path, neither a
    regular file nor anything else, [start_environment] raises
    [FileNotFoundError], which is not the [RuntimeError] of a failed
    start, and nothing is run. *)
Theorem start_environment_without_manifest (st : St) (compose_file : string) :
  self st !! "compose_file" = Some (PStr compose_file) ->
  fs st !! compose_file = None ->
  elsewhere (record [ECall "start_environment"] st) compose_file = Nothing ->
  start_environment st =
    (Raise (FileNotFoundError
              ("Compose file " +:+ compose_file +:+
               " not found. Run generate_deployment() first.")),
     record [ECall "start_environment"] st) /\
  runs_of (trace (snd (start_environment st))) = runs_of (trace st) /\
  (forall msg, fst (start_environment st) <> Raise (RuntimeError msg)).
Proof.
  intros Hattr Hfile Hnothing.
  assert (start_environment st =
    (Raise (FileNotFoundError
              ("Compose file " +:+ compose_file +:+
               " not found. Run generate_deployment() first.")),
     record [ECall "start_environment"] st)) as Hrun.
  { unfold start_environment, bind, emit, getattr, path_exists. simpl.
    rewrite Hattr. simpl. rewrite Hfile.
    fold (record [ECall "start_environment"] st). by rewrite Hnothing. }
  split; [done|]. rewrite Hrun. simpl. rewrite runs_of_app. simpl.
  by rewrite app_nil_r.
Qed.

(** C7: when the container runtime exits with a non-zero status,
    [start_environment] logs the failure and raises [RuntimeError];
    [_wait_for_health] and [execute_models] are not entered, and no
    probe and no pull request is sent. *)
Theorem start_environment_aborts_on_nonzero_exit
    (st : St) (compose_file content : string) (code : Z) :
  let argv := ["docker-compose"; "-f"; compose_file; "up"; "-d"] in
  let before := record [ECall "start_environment";
                         ELog INFO "Starting Docker containers..."] st in
  self st !! "compose_file" = Some (PStr compose_file) ->
  fs st !! compose_file = Some content ->
  run_process before argv = Exited code ->
  code <> 0 ->
  start_environment st =
    (Raise (RuntimeError "Docker Compose failed to start."),
     record [ERun argv (Exited code);
             ELog ERROR ("Failed to start environment: " +:+
                         str_exn (CalledProcessError argv code))] before) /\
  calls_of "_wait_for_health" (trace (snd (start_environment st))) =
    calls_of "_wait_for_health" (trace st) /\
  calls_of "execute_models" (trace (snd (start_environment st))) =
    calls_of "execute_models" (trace st) /\
  gets_of (trace (snd (start_environment st))) = gets_of (trace st) /\
  posts_of (trace (snd (start_environment st))) = posts_of (trace st).
Proof.
  intros argv before Hattr Hfile Hproc Hcode.
  assert (start_environment st =
    (Raise (RuntimeError "Docker Compose failed to start."),
     record [ERun argv (Exited code);
             ELog ERROR ("Failed to start environment: " +:+
                         str_exn (CalledProcessError argv code))] before)) as Hrun.
  { unfold start_environment, bind, emit, getattr, path_exists. simpl.
    rewrite Hattr. simpl. rewrite Hfile. simpl.
    unfold try_except, bind, subprocess_run, log, emit.
    rewrite !record_record. simpl app. fold before. fold argv. rewrite Hproc.
    destruct (Z.eqb_spec code 0) as [|_]; [done|]. simpl.
    unfold raise, before. by rewrite !record_record. }
  split; [done|]. rewrite Hrun. simpl.
  rewrite !calls_of_app, !gets_of_app, !posts_of_app. simpl.
  rewrite !app_nil_r. unfold calls_of. simpl. repeat split; lia.
Qed.

Lemma init_model_other_provider p m st :
  p <> "ollama" -> p <> "vllm" ->
  init_model p m st =
    (Ok tt,
     record [ELog INFO ("Initializing model: " +:+ name m +:+ "...");
             ELog WARNING ("No specific initialization logic for provider: " +:+ p)] st).
Proof.
  intros Ho Hv. unfold init_model, bind, log, emit.
  destruct (String.eqb_spec p "ollama"); [done|].
  destruct (String.eqb_spec p "vllm"); [done|].
  by rewrite record_record.
Qed.

(** The loop of [execute_models] for a provider without initialization
    logic: two log records per model. *)
Lemma for_each_other_provider p ms : forall st,
  p <> "ollama" -> p <> "vllm" ->
  for_each ms (init_model p) st =
    (Ok tt,
     record (flat_map (fun m =>
                         [ELog INFO ("Initializing model: " +:+ name m +:+ "...");
                          ELog WARNING ("No specific initialization logic for provider: "
                                        +:+ p)]) ms) st).
Proof.
  intros st Ho Hv. revert st.
  induction ms as [|m ms IH]; intros st; simpl.
  - unfold ret. by rewrite record_nil.
  - unfold bind. rewrite init_model_other_provider by done.
    rewrite IH. by rewrite record_record.
Qed.

(** C10: for a provider that is neither ["ollama"] nor ["vllm"],
    [execute_models] returns normally whatever the configured models
    are; per model it logs the initialization line and a warning, and it
    sends no request.  The generator, for the same configuration, raises
    its unsupported-provider error. *)
Theorem execute_models_other_provider_only_warns (st : St) (config : RunConfig) :
  self st !! "config" = Some (PConfig config) ->
  provider (engine config) <> "ollama" ->
  provider (engine config) <> "vllm" ->
  execute_models st =
    (Ok tt,
     record (ECall "execute_models" ::
             flat_map (fun m =>
                         [ELog INFO ("Initializing model: " +:+ name m +:+ "...");
                          ELog WARNING ("No specific initialization logic for provider: "
                                        +:+ provider (engine config))])
                      (models config)) st) /\
  posts_of (trace (snd (execute_models st))) = posts_of (trace st) /\
  gets_of (trace (snd (execute_models st))) = gets_of (trace st) /\
  generate config =
    Raise (ValueError ("Unsupported provider: " +:+ provider (engine config))).
Proof.
  intros Hattr Ho Hv.
  assert (execute_models st =
    (Ok tt,
     record (ECall "execute_models" ::
             flat_map (fun m =>
                         [ELog INFO ("Initializing model: " +:+ name m +:+ "...");
                          ELog WARNING ("No specific initialization logic for provider: "
                                        +:+ provider (engine config))])
                      (models config)) st)) as Hrun.
  { unfold execute_models, bind, emit, getattr. simpl. rewrite Hattr. simpl.
    rewrite for_each_other_provider by done. by rewrite record_record. }
  split; [done|]. rewrite Hrun. simpl.
  rewrite posts_of_app, gets_of_app. simpl.
  assert (forall ms : list ModelConfig,
    posts_of (flat_map (fun m =>
       [ELog INFO ("Initializing model: " +:+ name m +:+ "...");
        ELog WARNING ("No specific initialization logic for provider: "
                      +:+ provider (engine config))]) ms) = [] /\
    gets_of (flat_map (fun m =>
       [ELog INFO ("Initializing model: " +:+ name m +:+ "...");
        ELog WARNING ("No specific initialization logic for provider: "
                      +:+ provider (engine config))]) ms) = []) as Hlogs.
  { induction ms as [|m ms [IH1 IH2]]; simpl; auto. }
  destruct (Hlogs (models config)) as [-> ->]. rewrite !app_nil_r.
  repeat split. by apply generate_unsupported.
Qed.

(** One turn of the loop of [execute_models] for ollama: the request is
    posted, and its outcome decides between the success record and the
    error record with the exception. *)
Lemma init_model_ollama m st :
  let url := "http://localhost:11434/api/pull" in
  let payload := [("name", YStr (name m)); ("stream", YScalar "False")] in
  let st1 := record [ELog INFO ("Initializing model: " +:+ name m +:+ "...");
                     ECall "_pull_ollama_model";
                     ELog INFO ("Requesting Ollama to pull '" +:+ name m +:+
                                "' (this may take a while)...")] st in
  let o := http_post st1 url payload in
  init_model "ollama" m st =
    match pull_failure o with
    | None =>
        (Ok tt, record [EPost url payload o;
                        ELog INFO ("Successfully pulled " +:+ name m +:+ ".")] st1)
    | Some e =>
        (Raise e, record [EPost url payload o;
                          ELog ERROR ("Failed to pull model " +:+ name m +:+ ": " +:+
                                      str_exn e)] st1)
    end.
Proof.
  intros url payload st1 o.
  unfold init_model. rewrite String.eqb_refl.
  unfold _pull_ollama_model, bind, log, emit.
  rewrite !record_record. simpl app. fold st1.
  unfold try_except, bind, requests_post.
  change ("http://localhost:11434" +:+ "/api/pull") with url.
  fold payload. fold o.
  destruct o as [status|k]; simpl.
  - unfold raise_for_status.
    destruct ((400 <=? status) && (status <? 600)); simpl.
    + unfold raise, log, emit, bind. by rewrite !record_record.
    + unfold ret, log, emit. by rewrite !record_record.
  - unfold raise, log, emit, bind. by rewrite !record_record.
Qed.

Lemma for_each_ollama_step m ms st :
  let url := "http://localhost:11434/api/pull" in
  let payload := [("name", YStr (name m)); ("stream", YScalar "False")] in
  let st1 := record [ELog INFO ("Initializing model: " +:+ name m +:+ "...");
                     ECall "_pull_ollama_model";
                     ELog INFO ("Requesting Ollama to pull '" +:+ name m +:+
                                "' (this may take a while)...")] st in
  let o := http_post st1 url payload in
  for_each (m :: ms) (init_model "ollama") st =
    match pull_failure o with
    | None =>
        for_each ms (init_model "ollama")
          (record [EPost url payload o;
                   ELog INFO ("Successfully pulled " +:+ name m +:+ ".")] st1)
    | Some e =>
        (Raise e, record [EPost url payload o;
                          ELog ERROR ("Failed to pull model " +:+ name m +:+ ": " +:+
                                      str_exn e)] st1)
    end.
Proof.
  intros url payload st1 o. simpl for_each. unfold bind at 1.
  rewrite init_model_ollama. fold url payload st1 o.
  by destruct (pull_failure o).
Qed.

Lemma for_each_ollama ms : forall st,
  exists new outcomes,
    snd (for_each ms (init_model "ollama") st) = record new st /\
    (length outcomes <= length ms)%nat /\
    posts_of new =
      zip_with (fun m o => ("http://localhost:11434/api/pull",
                            [("name", YStr (name m)); ("stream", YScalar "False")], o))
               ms outcomes /\
    match fst (for_each ms (init_model "ollama") st) with
    | Ok _ =>
        length outcomes = length ms /\
        Forall (fun o => pull_failure o = None) outcomes
    | Raise e =>
        exists before o,
          outcomes = before ++ [o] /\
          Forall (fun o => pull_failure o = None) before /\
          pull_failure o = Some e
    | OutOfFuel => False
    end.
Proof.
  induction ms as [|m ms IH]; intros st.
  - exists [], []. simpl. rewrite record_nil. auto.
  - rewrite for_each_ollama_step.
    set (st1 := record _ st).
    set (o := http_post st1 _ _).
    destruct (pull_failure o) as [e|] eqn:Ho.
    + eexists _, [o]. simpl. unfold st1. rewrite record_record.
      split; [done|]. split; [lia|]. split; [by destruct ms|].
      exists [], o. auto.
    + match goal with |- context [for_each ms _ ?s] =>
        destruct (IH s) as (new & outcomes & Hst & Hlen & Hposts & Hres)
      end.
      eexists _, (o :: outcomes). split.
      { rewrite Hst. unfold st1. rewrite !record_record. reflexivity. }
      split; [simpl; lia|]. split.
      { rewrite !posts_of_app. simpl. by rewrite Hposts. }
      revert Hres. destruct (fst (for_each ms _ _)) as [u|e|]; [| |done].
      * intros [Hl Hall]. split; [simpl; lia|]. by constructor.
      * intros (before & o' & -> & Hall & Hfail).
        exists (o :: before), o'. split; [done|]. split; [by constructor|done].
Qed.

(** C5: for ollama, [execute_models] posts the pull requests for the
    configured models one after the other, in configuration order, each
    with its outcome known before the next is sent.  When every pull
    succeeds there is exactly one request per model; as soon as one
    fails, its exception is what [execute_models] raises and no further
    request follows. *)
Theorem execute_models_ollama_pulls_in_order (st : St) (config : RunConfig) :
  self st !! "config" = Some (PConfig config) ->
  provider (engine config) = "ollama" ->
  exists new outcomes,
    trace (snd (execute_models st)) = trace st ++ new /\
    (length outcomes <= length (models config))%nat /\
    posts_of new =
      zip_with (fun m o => ("http://localhost:11434/api/pull",
                            [("name", YStr (name m)); ("stream", YScalar "False")], o))
               (models config) outcomes /\
    match fst (execute_models st) with
    | Ok _ =>
        length outcomes = length (models config) /\
        Forall (fun o => pull_failure o = None) outcomes
    | Raise e =>
        exists before o,
          outcomes = before ++ [o] /\
          Forall (fun o => pull_failure o = None) before /\
          pull_failure o = Some e
    | OutOfFuel => False
    end.
Proof.
  intros Hattr Hp.
  unfold execute_models, bind, emit, getattr. simpl. rewrite Hattr. simpl. rewrite Hp.
  match goal with |- context [for_each _ _ ?s] =>
    destruct (for_each_ollama (models config) s) as (new & outcomes & Hst & Hlen & Hposts & Hres)
  end.
  exists (ECall "execute_models" :: new), outcomes.
  rewrite Hst. simpl. rewrite <- app_assoc. simpl.
  split; [done|]. split; [done|]. split; [done|]. exact Hres.
Qed.

(** The four ways one turn of the polling loop can go. *)
Lemma wait_loop_deadline fuel start_time timeout_ms url st :
  timeout_ms <= clock st - start_time ->
  wait_loop (S fuel) start_time timeout_ms url st =
    (Raise (TimeoutError "Engine failed to become responsive within timeout."), st).
Proof.
  intros Hlate. simpl. unfold bind, time_time.
  destruct (Z.ltb_spec (clock st - start_time) timeout_ms); [lia|done].
Qed.

Lemma wait_loop_reachable fuel start_time timeout_ms url st status took :
  clock st - start_time < timeout_ms ->
  http_get st url = (Response status, took) ->
  wait_loop (S fuel) start_time timeout_ms url st =
    (Ok tt, record [EGet url (Response status); ELog INFO "Engine is responsive."]
              (tick (Z.of_N took) st)).
Proof.
  intros Hearly Hget. simpl. unfold bind at 1, time_time.
  destruct (Z.ltb_spec (clock st - start_time) timeout_ms); [|lia].
  unfold try_except, bind, requests_get. rewrite Hget.
  unfold log, emit. by rewrite record_record.
Qed.

Lemma wait_loop_retry fuel start_time timeout_ms url st k took :
  clock st - start_time < timeout_ms ->
  http_get st url = (Failed k, took) ->
  is_requests_ConnectionError (RequestException k) = true ->
  wait_loop (S fuel) start_time timeout_ms url st =
    wait_loop fuel start_time timeout_ms url
      (tick 2000 (record [EGet url (Failed k); ESleep 2000] (tick (Z.of_N took) st))).
Proof.
  intros Hearly Hget Hconn. simpl. unfold bind at 1, time_time.
  destruct (Z.ltb_spec (clock st - start_time) timeout_ms); [|lia].
  unfold try_except at 1, bind at 1, requests_get. rewrite Hget. rewrite Hconn.
  unfold bind at 1, time_sleep, bind, emit, advance. by rewrite record_record.
Qed.

Lemma wait_loop_propagates fuel start_time timeout_ms url st k took :
  clock st - start_time < timeout_ms ->
  http_get st url = (Failed k, took) ->
  is_requests_ConnectionError (RequestException k) = false ->
  wait_loop (S fuel) start_time timeout_ms url st =
    (Raise (RequestException k), record [EGet url (Failed k)] (tick (Z.of_N took) st)).
Proof.
  intros Hearly Hget Hconn. simpl. unfold bind at 1, time_time.
  destruct (Z.ltb_spec (clock st - start_time) timeout_ms); [|lia].
  unfold try_except at 1, bind at 1, requests_get. rewrite Hget. by rewrite Hconn.
Qed.

(** The loop as a whole, given fuel for the two-second steps that fit
    before the deadline. *)
Lemma wait_loop_outcomes start_time timeout_ms url fuel : forall st,
  (0 < fuel)%nat ->
  timeout_ms - (clock st - start_time) <= 2000 * (Z.of_nat fuel - 1) ->
  exists ks final,
    Forall (fun k => is_requests_ConnectionError (RequestException k) = true) ks /\
    trace (snd (wait_loop fuel start_time timeout_ms url st)) =
      trace st ++ retry_events url ks ++ final /\
    match fst (wait_loop fuel start_time timeout_ms url st) with
    | Ok _ =>
        exists status,
          final = [EGet url (Response status); ELog INFO "Engine is responsive."]
    | Raise e =>
        (e = TimeoutError "Engine failed to become responsive within timeout." /\
         final = [] /\
         timeout_ms <= clock (snd (wait_loop fuel start_time timeout_ms url st)) - start_time)
        \/
        (exists k, e = RequestException k /\
                   is_requests_ConnectionError e = false /\
                   final = [EGet url (Failed k)])
    | OutOfFuel => False
    end.
Proof.
  induction fuel as [|fuel IH]; intros st Hpos Hfuel; [lia|].
  destruct (Z.lt_ge_cases (clock st - start_time) timeout_ms) as [Hearly|Hlate].
  - destruct (http_get st url) as [[status|k] took] eqn:Hget.
    + rewrite (wait_loop_reachable _ _ _ _ _ _ _ Hearly Hget).
      exists [], [EGet url (Response status); ELog INFO "Engine is responsive."].
      simpl. split; [done|]. split; [done|]. by exists status.
    + destruct (is_requests_ConnectionError (RequestException k)) eqn:Hconn.
      * rewrite (wait_loop_retry _ _ _ _ _ _ _ Hearly Hget Hconn).
        match goal with |- context [wait_loop fuel _ _ _ ?s] =>
          destruct (IH s) as (ks & final & Hks & Htrace & Hres)
        end.
        { lia. }
        { simpl. lia. }
        exists (k :: ks), final. split; [by constructor|]. split; [|exact Hres].
        rewrite Htrace. simpl. by rewrite <- app_assoc.
      * rewrite (wait_loop_propagates _ _ _ _ _ _ _ Hearly Hget Hconn).
        exists [], [EGet url (Failed k)]. simpl. split; [done|]. split; [done|].
        right. by exists k.
  - rewrite (wait_loop_deadline _ _ _ _ _ Hlate).
    exists [], []. simpl. rewrite app_nil_r. split; [done|]. split; [done|].
    left. auto.
Qed.

Lemma poll_budget_enough timeout :
  (0 < poll_budget timeout)%nat /\
  timeout * 1000 <= 2000 * (Z.of_nat (poll_budget timeout) - 1).
Proof.
  unfold poll_budget. split; [lia|].
  destruct (Z.le_gt_cases 0 timeout) as [Hnn|Hneg].
  - rewrite Nat2Z.inj_add, Z2Nat.id by (apply Z.div_pos; lia).
    pose proof (Z.mod_pos_bound timeout 2 ltac:(lia)).
    pose proof (Z.div_mod timeout 2 ltac:(lia)). lia.
  - rewrite Z2Nat.nonpos by (apply Z.lt_le_incl, Z.div_lt_upper_bound; lia).
    lia.
Qed.

(** C4, as the code has it: the poll retries after a connection error
    (of which a refusal is one) and after nothing else.  It ends in one
    of three ways: the probe got a response and the poll returns; the
    deadline passed and it raises [TimeoutError], which is not a
    connection error; or the probe raised an exception that is not a
    [requests.ConnectionError], which leaves the poll at once,
    unretried. *)
Theorem wait_for_health_outcomes (st : St) (config : RunConfig) (timeout : Z) :
  self st !! "config" = Some (PConfig config) ->
  let url := if String.eqb (provider (engine config)) "ollama"
             then "http://localhost:11434" else "http://localhost:8000" in
  exists ks final,
    Forall (fun k => is_requests_ConnectionError (RequestException k) = true) ks /\
    trace (snd (_wait_for_health timeout st)) =
      trace st ++ [ECall "_wait_for_health";
                   ELog INFO ("Waiting for engine at " +:+ url +:+ "...")]
               ++ retry_events url ks ++ final /\
    match fst (_wait_for_health timeout st) with
    | Ok _ =>
        exists status,
          final = [EGet url (Response status); ELog INFO "Engine is responsive."]
    | Raise e =>
        (e = TimeoutError "Engine failed to become responsive within timeout." /\
         is_requests_ConnectionError e = false /\
         final = [] /\
         timeout * 1000 <= clock (snd (_wait_for_health timeout st)) - clock st)
        \/
        (exists k, e = RequestException k /\
                   is_requests_ConnectionError e = false /\
                   final = [EGet url (Failed k)])
    | OutOfFuel => False
    end.
Proof.
  intros Hattr url.
  unfold _wait_for_health, bind, emit, time_time, getattr, log, emit. simpl.
  rewrite Hattr. simpl. rewrite record_record. simpl app.
  assert ((if String.eqb (provider (engine config)) "ollama"
           then "http://localhost:" +:+ "11434" else "http://localhost:" +:+ "8000") = url)
    as Hurl by (unfold url; by destruct (String.eqb _ _)).
  replace ("http://localhost:" +:+
           (if String.eqb (provider (engine config)) "ollama" then "11434" else "8000"))
    with url by (rewrite <- Hurl; by destruct (String.eqb _ _)).
  destruct (poll_budget_enough timeout) as [Hpos Hfuel].
  match goal with |- context [wait_loop _ _ _ _ ?s] =>
    destruct (wait_loop_outcomes (clock st) (timeout * 1000) url (poll_budget timeout) s)
      as (ks & final & Hks & Htrace & Hres)
  end.
  { done. }
  { simpl. lia. }
  exists ks, final. split; [done|]. split.
  - rewrite Htrace. simpl. by rewrite <- app_assoc.
  - destruct (fst (wait_loop _ _ _ _ _)) as [[]|e|]; [done| |done].
    destruct Hres as [(-> & -> & Hclock)|Hother]; [left|by right].
    repeat split; done.
Qed.

End ManagerFacts.

(** ** The statements on the sample instances *)

Example split_named : py_split ":" "data:/var/lib/x" = ["data"; "/var/lib/x"].
Proof. reflexivity. Qed.

Example split_windows_like : py_split ":" "a:b:ro" = ["a"; "b"; "ro"].
Proof. reflexivity. Qed.

Example split_no_colon : py_split ":" "scratch" = ["scratch"].
Proof. reflexivity. Qed.

Example volume_data : add_named_volumes [] [YStr "data:/var/lib/x"] = Ok [("data", YDict [])].
Proof. reflexivity. Qed.

Example volume_host_path : add_named_volumes [] [YStr "/host/path:/var/lib/x"] = Ok [].
Proof. reflexivity. Qed.

Example volume_home_path : add_named_volumes [] [YStr "~/path:/var/lib/x"] = Ok [].
Proof. reflexivity. Qed.

Example volume_declared_twice :
  add_named_volumes [] [YStr "data:/a"; YStr "cache:/b"; YStr "data:/c"] =
    Ok [("data", YDict []); ("cache", YDict [])].
Proof. reflexivity. Qed.

Example demo_manifest :
  compose_dict_of (libs := demo_libs) three_models =
    Ok (YDict [("version", YStr "3.8");
               ("services", YDict [("ollama", YDict (demo_ollama []))]);
               ("volumes", YDict [("data", YDict [])])]).
Proof. reflexivity. Qed.

(** C8 on the three declarations of the sample ollama adapter. *)
Lemma generate_registers_bare_volume_names_witness :
  select_engine (libs := demo_libs) three_models =
    Ok ("ollama", demo_ollama (model_dump (engine three_models))) /\
  dict_get "volumes" (demo_ollama (model_dump (engine three_models))) =
    Some (YList (map YStr ["data:/var/lib/x"; "/host/path:/var/lib/x"; "~/path:/var/lib/x"])) /\
  exists volumes,
    generate (libs := demo_libs) three_models =
      Ok (demo_dump
            (YDict [("version", YStr "3.8");
                    ("services",
                     YDict [("ollama", YDict (demo_ollama (model_dump (engine three_models))))]);
                    ("volumes", YDict volumes)])) /\
    (forall decl,
       In decl ["data:/var/lib/x"; "/host/path:/var/lib/x"; "~/path:/var/lib/x"] ->
       exists lhs,
         vol_name_of decl = Ok lhs /\
         py_in_char ":" lhs = false /\
         (decl = lhs \/ exists rhs, decl = lhs +:+ ":" +:+ rhs) /\
         (dict_mem lhs volumes = true <->
          py_in_char "/" lhs = false /\ py_in_char "~" lhs = false)) /\
    (forall name, dict_mem name volumes = true ->
       dict_get name volumes = Some (YDict []) /\
       exists decl,
         In decl ["data:/var/lib/x"; "/host/path:/var/lib/x"; "~/path:/var/lib/x"] /\
         vol_name_of decl = Ok name).
Proof.
  split; [reflexivity|]. split; [reflexivity|].
  apply (generate_registers_bare_volume_names (libs := demo_libs) three_models
           "ollama" (demo_ollama (model_dump (engine three_models)))
           ["data:/var/lib/x"; "/host/path:/var/lib/x"; "~/path:/var/lib/x"]);
    reflexivity.
Defined.

(** C2 on a vllm engine without further settings. *)
Lemma vllm_service_definition_ignores_models_witness :
  provider (mkEngineConfig "vllm" []) = "vllm" /\
  (forall ms ms',
     generate (libs := demo_libs) (mkRunConfig (mkEngineConfig "vllm" []) ms) =
     generate (libs := demo_libs) (mkRunConfig (mkEngineConfig "vllm" []) ms')) /\
  exists m service_def,
    select_engine (libs := demo_libs) (mkRunConfig (mkEngineConfig "vllm" []) [m]) =
      Ok ("vllm", service_def) /\
    mentions (name m) (YDict service_def) = false.
Proof.
  split; [reflexivity|].
  apply (vllm_service_definition_ignores_models (libs := demo_libs)
           (mkEngineConfig "vllm" [])).
  reflexivity.
Defined.

(** With the sample vllm adapter: the configured model is
    ["mistral-7b"], the service is started for the adapter's default. *)
Example vllm_configured_model_missing :
  select_engine (libs := demo_libs) (demo_config "vllm" ["mistral-7b"]) =
    Ok ("vllm", demo_vllm [("provider", YStr "vllm")]) /\
  mentions "mistral-7b" (YDict (demo_vllm [("provider", YStr "vllm")])) = false.
Proof. split; reflexivity. Qed.

Example new_manager_generate_deployment :
  generate_deployment (libs := demo_libs) (env := env_up) "docker-compose.yml" st_new =
    (Raise (AttributeError "run_config"),
     record [ECall "generate_deployment"] st_new).
Proof. vm_compute. reflexivity. Qed.

(** C3 on a configuration for the provider ["tgi"]. *)
Lemma unsupported_provider_error_is_masked_witness :
  provider (engine tgi_config) <> "ollama" /\
  provider (engine tgi_config) <> "vllm" /\
  generate (libs := demo_libs) tgi_config = Raise (ValueError "Unsupported provider: tgi") /\
  generate_deployment (libs := demo_libs) (env := env_up) "out.yml" (mkSt (init tgi_config) ∅ 0 []) =
    (Raise (AttributeError "run_config"),
     mkSt (<["compose_file" := PStr "out.yml"]> (init tgi_config)) ∅ 0
          ([] ++ [ECall "generate_deployment"])).
Proof.
  split; [discriminate|]. split; [discriminate|].
  apply (unsupported_provider_error_is_masked (libs := demo_libs) (env := env_up)
           tgi_config ∅ 0 [] "out.yml"); discriminate.
Defined.

(** C9 on a new manager: the call fails and [compose_file] is
    ["out.yml"], no longer the ["docker-compose.yml"] of [__init__]. *)
Lemma generate_deployment_records_path_before_failing_witness :
  generate_deployment (libs := demo_libs) (env := env_up) "out.yml" (fresh tgi_config ∅) =
    (Raise (AttributeError "run_config"),
     mkSt (<["compose_file" := PStr "out.yml"]> (init tgi_config)) ∅ 0
          [ECall "generate_deployment"]) /\
  <["compose_file" := PStr "out.yml"]> (init tgi_config) !! "compose_file" =
    Some (PStr "out.yml") /\
  (init tgi_config !! "compose_file" <> Some (PStr "out.yml") ->
   <["compose_file" := PStr "out.yml"]> (init tgi_config) <> init tgi_config).
Proof.
  assert (generate_deployment (libs := demo_libs) (env := env_up) "out.yml"
            (fresh tgi_config ∅) =
          (Raise (AttributeError "run_config"),
           mkSt (<["compose_file" := PStr "out.yml"]> (init tgi_config)) ∅ 0
                [ECall "generate_deployment"])) as Hrun
    by (vm_compute; reflexivity).
  split; [exact Hrun|].
  exact (generate_deployment_records_path_before_failing
           (libs := demo_libs) (env := env_up) "out.yml" (fresh tgi_config ∅)
           (mkSt (<["compose_file" := PStr "out.yml"]> (init tgi_config)) ∅ 0
                 [ECall "generate_deployment"])
           (AttributeError "run_config") Hrun).
Defined.

(** The same on an instance that has the attribute the method reads:
    the generator's own error also arrives after the path was
    recorded, and before anything is written. *)
Example unsupported_provider_after_path_recorded :
  generate_deployment (libs := demo_libs) (env := env_up) "out.yml"
    (mkSt (<["run_config" := PConfig tgi_config]> (init tgi_config)) ∅ 0 []) =
    (Raise (ValueError "Unsupported provider: tgi"),
     mkSt (<["compose_file" := PStr "out.yml"]>
             (<["run_config" := PConfig tgi_config]> (init tgi_config))) ∅ 0
          [ECall "generate_deployment"; ECall "DockerComposeGenerator.generate"]).
Proof. vm_compute. reflexivity. Qed.

(** C6, as stated, fails twice.  On a manager on which
    [generate_deployment] was never called, in a directory that holds a
    [docker-compose.yml], [start_environment] runs the container
    runtime and returns.  And [FileNotFoundError], the error of the
    missing manifest, is also what a failure at run time raises: on the
    same manager, where the container runtime is not installed, the
    process invocation is attempted and [start_environment] raises
    [FileNotFoundError]. *)
Lemma start_environment_on_leftover_manifest :
  calls_of "generate_deployment" (trace st_leftover) = 0%nat /\
  fst (start_environment (libs := demo_libs) (env := env_up) st_leftover) = Ok tt /\
  runs_of (trace (snd (start_environment (libs := demo_libs) (env := env_up) st_leftover))) =
    [["docker-compose"; "-f"; "docker-compose.yml"; "up"; "-d"]] /\
  fst (start_environment (libs := demo_libs) (env := env_no_docker) st_leftover) =
    Raise (FileNotFoundError "docker-compose") /\
  runs_of (trace (snd (start_environment (libs := demo_libs) (env := env_no_docker)
                         st_leftover))) =
    [["docker-compose"; "-f"; "docker-compose.yml"; "up"; "-d"]].
Proof. vm_compute. auto 6. Qed.

(** C6, amended, on a new manager in an empty directory. *)
Lemma start_environment_without_manifest_witness :
  self st_new !! "compose_file" = Some (PStr "docker-compose.yml") /\
  fs st_new !! "docker-compose.yml" = None /\
  elsewhere (Env := env_up) (record [ECall "start_environment"] st_new)
    "docker-compose.yml" = Nothing /\
  start_environment (libs := demo_libs) (env := env_up) st_new =
    (Raise (FileNotFoundError
              ("Compose file " +:+ "docker-compose.yml" +:+
               " not found. Run generate_deployment() first.")),
     record [ECall "start_environment"] st_new) /\
  runs_of (trace (snd (start_environment (libs := demo_libs) (env := env_up) st_new))) =
    runs_of (trace st_new) /\
  (forall msg, fst (start_environment (libs := demo_libs) (env := env_up) st_new) <>
               Raise (RuntimeError msg)).
Proof.
  split; [reflexivity|]. split; [reflexivity|]. split; [reflexivity|].
  apply (start_environment_without_manifest (libs := demo_libs) (env := env_up)
           st_new "docker-compose.yml"); reflexivity.
Defined.

(** The empty path, which [Path] reads as the current directory: after
    [generate_deployment("")] nothing was written, the path exists all
    the same, and [start_environment] runs the container runtime on
    it. *)
Example start_environment_on_empty_path :
  runs_of (trace (snd (start_environment (libs := demo_libs) (env := env_empty_path)
                         (session (libs := demo_libs) (env := env_empty_path)
                            [GenerateDeployment ""] st_new)))) =
    [["docker-compose"; "-f"; ""; "up"; "-d"]] /\
  fst (start_environment (libs := demo_libs) (env := env_empty_path)
         (session (libs := demo_libs) (env := env_empty_path)
            [GenerateDeployment ""] st_new)) =
    Raise (RuntimeError "Docker Compose failed to start.").
Proof. vm_compute. auto. Qed.

(** C7 with a container runtime that exits with status 1. *)
Lemma start_environment_aborts_on_nonzero_exit_witness :
  self st_leftover !! "compose_file" = Some (PStr "docker-compose.yml") /\
  fs st_leftover !! "docker-compose.yml" = Some "version: '3.8'" /\
  run_process (Env := env_compose_fails)
    (record [ECall "start_environment"; ELog INFO "Starting Docker containers..."] st_leftover)
    ["docker-compose"; "-f"; "docker-compose.yml"; "up"; "-d"] = Exited 1 /\
  1 <> 0 /\
  fst (start_environment (libs := demo_libs) (env := env_compose_fails) st_leftover) =
    Raise (RuntimeError "Docker Compose failed to start.") /\
  calls_of "_wait_for_health"
    (trace (snd (start_environment (libs := demo_libs) (env := env_compose_fails) st_leftover))) =
    0%nat /\
  calls_of "execute_models"
    (trace (snd (start_environment (libs := demo_libs) (env := env_compose_fails) st_leftover))) =
    0%nat.
Proof.
  split; [reflexivity|]. split; [reflexivity|]. split; [reflexivity|]. split; [lia|].
  destruct (start_environment_aborts_on_nonzero_exit
              (libs := demo_libs) (env := env_compose_fails)
              st_leftover "docker-compose.yml" "version: '3.8'" 1
              eq_refl eq_refl eq_refl ltac:(lia))
    as (Hrun & Hhealth & Hmodels & _ & _).
  split; [by rewrite Hrun|]. split; [by rewrite Hhealth|by rewrite Hmodels].
Defined.

(** C10 for the provider ["tgi"] and two models. *)
Lemma execute_models_other_provider_only_warns_witness :
  self (fresh tgi_config ∅) !! "config" = Some (PConfig tgi_config) /\
  provider (engine tgi_config) <> "ollama" /\
  provider (engine tgi_config) <> "vllm" /\
  execute_models (libs := demo_libs) (env := env_up) (fresh tgi_config ∅) =
    (Ok tt,
     record [ECall "execute_models";
             ELog INFO "Initializing model: llama3...";
             ELog WARNING "No specific initialization logic for provider: tgi";
             ELog INFO "Initializing model: mistral...";
             ELog WARNING "No specific initialization logic for provider: tgi"]
            (fresh tgi_config ∅)) /\
  generate (libs := demo_libs) tgi_config = Raise (ValueError "Unsupported provider: tgi").
Proof.
  split; [reflexivity|]. split; [discriminate|]. split; [discriminate|].
  destruct (execute_models_other_provider_only_warns (libs := demo_libs) (env := env_up)
              (fresh tgi_config ∅) tgi_config eq_refl
              ltac:(discriminate) ltac:(discriminate))
    as (Hrun & _ & _ & Hgen).
  split; [exact Hrun|exact Hgen].
Defined.

(** C5 with a registry that lacks the second of three models. *)
Lemma execute_models_ollama_pulls_in_order_witness :
  self st_new !! "config" = Some (PConfig three_models) /\
  provider (engine three_models) = "ollama" /\
  exists new outcomes,
    trace (snd (execute_models (libs := demo_libs) (env := env_missing_model) st_new)) =
      trace st_new ++ new /\
    (length outcomes <= length (models three_models))%nat /\
    posts_of new =
      zip_with (fun m o => ("http://localhost:11434/api/pull",
                            [("name", YStr (name m)); ("stream", YScalar "False")], o))
               (models three_models) outcomes /\
    match fst (execute_models (libs := demo_libs) (env := env_missing_model) st_new) with
    | Ok _ =>
        length outcomes = length (models three_models) /\
        Forall (fun o => pull_failure o = None) outcomes
    | Raise e =>
        exists before o,
          outcomes = before ++ [o] /\
          Forall (fun o => pull_failure o = None) before /\
          pull_failure o = Some e
    | OutOfFuel => False
    end.
Proof.
  split; [reflexivity|]. split; [reflexivity|].
  apply (execute_models_ollama_pulls_in_order (libs := demo_libs) (env := env_missing_model)
           st_new three_models); reflexivity.
Defined.

(** Three models, the second unknown to the registry: one successful
    pull, one failed pull, nothing for the third, and the [HTTPError]
    reaches the caller. *)
Example second_pull_fails :
  fst (execute_models (libs := demo_libs) (env := env_missing_model) st_new) =
    Raise (RequestException (ReqHTTPError 404)) /\
  posts_of (trace (snd (execute_models (libs := demo_libs) (env := env_missing_model) st_new))) =
    [("http://localhost:11434/api/pull",
      [("name", YStr "llama3"); ("stream", YScalar "False")], Response 200);
     ("http://localhost:11434/api/pull",
      [("name", YStr "missing"); ("stream", YScalar "False")], Response 404)].
Proof. vm_compute. auto. Qed.

(** C4 at the failing input: the port accepts the connection and the
    read times out.  That is a network error but not a
    [requests.ConnectionError]; the poll, meant to "just check if we
    can connect", makes one attempt and the exception leaves it,
    neither a normal return nor [TimeoutError]. *)
Lemma wait_for_health_read_timeout_not_retried :
  fst (_wait_for_health (env := env_read_timeout) 60 st_new) =
    Raise (RequestException ReqReadTimeout) /\
  gets_of (trace (snd (_wait_for_health (env := env_read_timeout) 60 st_new))) =
    [("http://localhost:11434", Failed ReqReadTimeout)].
Proof. vm_compute. auto. Qed.

(** C4 with a port that refuses every connection. *)
Lemma wait_for_health_outcomes_witness :
  self st_new !! "config" = Some (PConfig three_models) /\
  exists ks final,
    Forall (fun k => is_requests_ConnectionError (RequestException k) = true) ks /\
    trace (snd (_wait_for_health (env := env_refusing) 60 st_new)) =
      trace st_new ++ [ECall "_wait_for_health";
                       ELog INFO ("Waiting for engine at " +:+ "http://localhost:11434" +:+ "...")]
               ++ retry_events "http://localhost:11434" ks ++ final /\
    match fst (_wait_for_health (env := env_refusing) 60 st_new) with
    | Ok _ =>
        exists status,
          final = [EGet "http://localhost:11434" (Response status);
                   ELog INFO "Engine is responsive."]
    | Raise e =>
        (e = TimeoutError "Engine failed to become responsive within timeout." /\
         is_requests_ConnectionError e = false /\
         final = [] /\
         60 * 1000 <= clock (snd (_wait_for_health (env := env_refusing) 60 st_new)) - clock st_new)
        \/
        (exists k, e = RequestException k /\
                   is_requests_ConnectionError e = false /\
                   final = [EGet "http://localhost:11434" (Failed k)])
    | OutOfFuel => False
    end.
Proof.
  split; [reflexivity|].
  apply (wait_for_health_outcomes (env := env_refusing) st_new three_models 60).
  reflexivity.
Defined.

(** A port that refuses every connection: thirty attempts two seconds
    apart, then [TimeoutError] at the sixtieth second. *)
Example refused_until_timeout :
  fst (_wait_for_health (env := env_refusing) 60 st_new) =
    Raise (TimeoutError "Engine failed to become responsive within timeout.") /\
  length (gets_of (trace (snd (_wait_for_health (env := env_refusing) 60 st_new)))) = 30%nat /\
  clock (snd (_wait_for_health (env := env_refusing) 60 st_new)) = 60000.
Proof. vm_compute. auto. Qed.

(** The read timeout of the probe goes through [start_environment] as
    it is; the models are not initialized. *)
Example start_environment_read_timeout :
  fst (start_environment (libs := demo_libs) (env := env_read_timeout) st_leftover) =
    Raise (RequestException ReqReadTimeout) /\
  calls_of "execute_models"
    (trace (snd (start_environment (libs := demo_libs) (env := env_read_timeout) st_leftover))) =
    0%nat.
Proof. vm_compute. auto. Qed.

(** The whole of [start_environment] when everything answers. *)
Example start_environment_up :
  fst (start_environment (libs := demo_libs) (env := env_up) st_leftover) = Ok tt /\
  posts_of (trace (snd (start_environment (libs := demo_libs) (env := env_up) st_leftover))) =
    [("http://localhost:11434/api/pull",
      [("name", YStr "llama3"); ("stream", YScalar "False")], Response 200);
     ("http://localhost:11434/api/pull",
      [("name", YStr "missing"); ("stream", YScalar "False")], Response 200);
     ("http://localhost:11434/api/pull",
      [("name", YStr "mistral"); ("stream", YScalar "False")], Response 200)].
Proof. vm_compute. auto. Qed.

(** ** More on the generator *)

Lemma vol_name_of_lhs_of decl : vol_name_of decl = Ok (lhs_of decl).
Proof.
  unfold vol_name_of, lhs_of.
  destruct (py_split_head ":" decl) as (piece & pieces & -> & _). done.
Qed.

Lemma add_named_volume_str volumes decl :
  add_named_volume volumes (YStr decl) =
    Ok (if is_named_volume (lhs_of decl)
        then dict_set (lhs_of decl) (YDict []) volumes else volumes).
Proof.
  unfold add_named_volume. rewrite vol_name_of_lhs_of. simpl.
  by destruct (is_named_volume (lhs_of decl)).
Qed.

Lemma add_named_volumes_cons_str volumes decl vols :
  add_named_volumes volumes (YStr decl :: vols) =
    add_named_volumes (if is_named_volume (lhs_of decl)
                       then dict_set (lhs_of decl) (YDict []) volumes else volumes) vols.
Proof.
  change (add_named_volumes volumes (YStr decl :: vols))
    with (volumes' ← add_named_volume volumes (YStr decl); add_named_volumes volumes' vols).
  by rewrite add_named_volume_str.
Qed.

Lemma add_named_volumes_cons_other volumes vol vols :
  (forall s, vol <> YStr s) ->
  add_named_volumes volumes (vol :: vols) = Raise (AttributeError "split").
Proof. intros Hvol. destruct vol as [s| | |]; [by destruct (Hvol s)|done..]. Qed.

(** The loop raises nothing but the [AttributeError] of an entry that
    is not a string. *)
Lemma add_named_volumes_raises vols : forall volumes e,
  add_named_volumes volumes vols = Raise e -> e = AttributeError "split".
Proof.
  induction vols as [|vol vols IH]; intros volumes e; [done|].
  destruct vol as [decl|t|items|entries]; try (by intros [= <-]).
  rewrite add_named_volumes_cons_str. apply IH.
Qed.

(** Whatever is iterated, the names that the loop adds are bare and
    are declared as [{}]. *)
Lemma add_named_volumes_bare vols : forall volumes volumes',
  add_named_volumes volumes vols = Ok volumes' ->
  Forall (fun kv => is_named_volume (fst kv) = true /\ snd kv = YDict []) volumes ->
  Forall (fun kv => is_named_volume (fst kv) = true /\ snd kv = YDict []) volumes'.
Proof.
  induction vols as [|vol vols IH]; intros volumes volumes'.
  - by intros [= <-].
  - destruct vol as [decl|t|items|entries]; try done.
    rewrite add_named_volumes_cons_str. intros Hrun Hall.
    apply (IH _ _ Hrun).
    destruct (is_named_volume (lhs_of decl)) eqn:Hbare; [|done].
    clear Hrun IH. induction volumes as [|[k v] volumes IHv]; simpl.
    + by repeat constructor.
    + apply Forall_cons in Hall as [[Hk Hv] Hall]. simpl in *.
      destruct (String.eqb_spec k (lhs_of decl)) as [->|Hne].
      * by repeat constructor.
      * constructor; [done|]. by apply IHv.
Qed.

Lemma filter_filter_absorb (ks : list string) n l :
  In n ks ->
  List.filter (fun m => negb (existsb (String.eqb m) ks))
              (List.filter (fun m => negb (String.eqb m n)) l) =
  List.filter (fun m => negb (existsb (String.eqb m) ks)) l.
Proof.
  intros Hin. induction l as [|x l IH]; simpl; [done|].
  destruct (String.eqb_spec x n) as [->|Hne]; simpl.
  - rewrite IH.
    assert (existsb (String.eqb n) ks = true) as ->; [|done].
    apply existsb_exists. exists n. split; [done|apply String.eqb_refl].
  - by rewrite IH.
Qed.

Lemma filter_filter_snoc (ks : list string) n l :
  List.filter (fun m => negb (existsb (String.eqb m) (ks ++ [n]))) l =
  List.filter (fun m => negb (existsb (String.eqb m) ks))
              (List.filter (fun m => negb (String.eqb m n)) l).
Proof.
  induction l as [|x l IH]; simpl; [done|].
  rewrite existsb_app. simpl. rewrite orb_false_r.
  destruct (String.eqb x n); simpl.
  - by rewrite orb_true_r.
  - rewrite orb_false_r. by rewrite IH.
Qed.

Lemma dict_set_keys k v d :
  map fst (dict_set k v d) =
    if existsb (String.eqb k) (map fst d) then map fst d else map fst d ++ [k].
Proof.
  induction d as [|[k' v'] d IH]; simpl; [done|].
  rewrite (String.eqb_sym k k').
  destruct (String.eqb k' k); simpl; [done|].
  rewrite IH. by destruct (existsb (String.eqb k) (map fst d)).
Qed.

(** The keys after the loop: those that were there, then the new bare
    names in the order of their first declaration. *)
Lemma add_named_volumes_keys decls : forall volumes,
  exists volumes',
    add_named_volumes volumes (map YStr decls) = Ok volumes' /\
    map fst volumes' =
      map fst volumes ++
      List.filter (fun m => negb (existsb (String.eqb m) (map fst volumes)))
        (first_occurrences (List.filter is_named_volume (map lhs_of decls))).
Proof.
  induction decls as [|decl decls IH]; intros volumes.
  - exists volumes. simpl. by rewrite app_nil_r.
  - cbn [map]. rewrite add_named_volumes_cons_str. cbn [List.filter map].
    destruct (is_named_volume (lhs_of decl)) eqn:Hbare; [|apply IH].
    destruct (IH (dict_set (lhs_of decl) (YDict []) volumes)) as (volumes' & -> & Hkeys).
    exists volumes'. split; [done|]. rewrite Hkeys, dict_set_keys. simpl.
    destruct (existsb (String.eqb (lhs_of decl)) (map fst volumes)) eqn:Hin; simpl.
    + f_equal. symmetry. apply filter_filter_absorb.
      apply existsb_exists in Hin as (x & Hx & ->%String.eqb_eq). done.
    + rewrite <- app_assoc. simpl. f_equal. f_equal. apply filter_filter_snoc.
Qed.

Section MoreGeneratorFacts.

Context {libs : Libraries}.

(** X1: a service definition without a ["volumes"] key gives a manifest
    whose top-level [volumes] is empty. *)
Theorem generate_without_volumes_key
    (run_config : RunConfig) (service_name : string) (service_def : pydict) :
  select_engine run_config = Ok (service_name, service_def) ->
  dict_get "volumes" service_def = None ->
  generate run_config =
    Ok (yaml_dump
          (YDict [("version", YStr "3.8");
                  ("services", YDict [(service_name, YDict service_def)]);
                  ("volumes", YDict [])])).
Proof.
  intros Hsel Hnone. unfold generate, compose_dict_of.
  rewrite Hsel. simpl. by rewrite Hnone.
Qed.

(** X2: a volume entry that is not a string (a mapping in the long
    syntax, say) makes [generate] raise [AttributeError], wherever in
    the list it stands. *)
Theorem generate_rejects_non_string_volume
    (run_config : RunConfig) (service_name : string) (service_def : pydict)
    (pre : list string) (bad : yaml) (rest : list yaml) :
  select_engine run_config = Ok (service_name, service_def) ->
  dict_get "volumes" service_def = Some (YList (map YStr pre ++ bad :: rest)) ->
  (forall s, bad <> YStr s) ->
  generate run_config = Raise (AttributeError "split").
Proof.
  intros Hsel Hvols Hbad. unfold generate, compose_dict_of.
  rewrite Hsel. simpl. rewrite Hvols. simpl.
  assert (forall volumes,
            add_named_volumes volumes (map YStr pre ++ bad :: rest) =
              Raise (AttributeError "split")) as ->; [|done].
  clear Hvols. induction pre as [|decl pre IH]; intros volumes.
  - by apply add_named_volumes_cons_other.
  - cbn [map app]. rewrite add_named_volumes_cons_str. apply IH.
Qed.

(** X3: the top-level [volumes] lists the bare left-hand sides in the
    order of their first declaration, each once. *)
Theorem generate_volume_order
    (run_config : RunConfig) (service_name : string) (service_def : pydict)
    (decls : list string) :
  select_engine run_config = Ok (service_name, service_def) ->
  dict_get "volumes" service_def = Some (YList (map YStr decls)) ->
  exists volumes,
    compose_dict_of run_config =
      Ok (YDict [("version", YStr "3.8");
                 ("services", YDict [(service_name, YDict service_def)]);
                 ("volumes", YDict volumes)]) /\
    map fst volumes =
      first_occurrences (List.filter is_named_volume (map lhs_of decls)) /\
    NoDup (map fst volumes).
Proof.
  intros Hsel Hvols.
  destruct (add_named_volumes_keys decls []) as (volumes & Hrun & Hkeys).
  simpl in Hkeys.
  assert (forall l : list string, List.filter (fun _ => negb false) l = l) as Hid.
  { induction l as [|x l IH]; simpl in *; [done|]. by f_equal. }
  rewrite Hid in Hkeys.
  exists volumes. split; [|split; [done|]].
  - unfold compose_dict_of. rewrite Hsel. simpl. rewrite Hvols. simpl. by rewrite Hrun.
  - rewrite Hkeys. clear.
    induction (List.filter is_named_volume (map lhs_of decls)) as [|n l IH]; simpl.
    + constructor.
    + constructor.
      * rewrite list_elem_of_In, filter_In. intros [_ Hn].
        by rewrite String.eqb_refl in Hn.
      * clear -IH. induction IH as [|x l' Hx Hl IHl]; simpl; [constructor|].
        destruct (negb (String.eqb x n)); [|done].
        constructor; [|done].
        rewrite list_elem_of_In, filter_In. intros [Hin _].
        apply Hx. by apply list_elem_of_In.
Qed.

(** X4: [generate] raises [ValueError] for the providers other than
    ["ollama"] and ["vllm"], with the provider in the message, and for
    no other reason. *)
Theorem generate_ValueError_iff_unsupported (run_config : RunConfig) (msg : string) :
  generate run_config = Raise (ValueError msg) <->
  provider (engine run_config) <> "ollama" /\
  provider (engine run_config) <> "vllm" /\
  msg = "Unsupported provider: " +:+ provider (engine run_config).
Proof.
  split.
  - unfold generate, compose_dict_of, select_engine.
    destruct (String.eqb_spec (provider (engine run_config)) "ollama") as [Ho|Ho];
      [|destruct (String.eqb_spec (provider (engine run_config)) "vllm") as [Hv|Hv]];
      simpl.
    3: { intros [= <-]. done. }
    all: match goal with |- context [dict_get "volumes" ?sd] =>
           destruct (dict_get "volumes" sd) as [decls|]; simpl; [|done]
         end;
         destruct decls as [s|t|items|entries]; simpl; try done;
         match goal with |- context [add_named_volumes [] ?vols] =>
           destruct (add_named_volumes [] vols) as [v|e|] eqn:Hrun; simpl; try done;
           apply add_named_volumes_raises in Hrun as ->; done
         end.
  - intros (Ho & Hv & ->). by apply generate_unsupported.
Qed.

(** X5: whenever [generate] returns, the manifest has the version
    marker, one service named by the provider that holds the adapter's
    definition as it is, and a [volumes] section in which every name is
    free of ["/"] and ["~"] and is declared as [{}]. *)
Theorem generate_ok_shape (run_config : RunConfig) (text : string) :
  generate run_config = Ok text ->
  exists service_def volumes,
    (provider (engine run_config) = "ollama" /\
     service_def = OllamaEngine (model_dump (engine run_config))
     \/
     provider (engine run_config) = "vllm" /\
     service_def = VLLMEngine (model_dump (engine run_config))) /\
    text = yaml_dump
             (YDict [("version", YStr "3.8");
                     ("services",
                      YDict [(provider (engine run_config), YDict service_def)]);
                     ("volumes", YDict volumes)]) /\
    Forall (fun kv => py_in_char "/" (fst kv) = false /\
                      py_in_char "~" (fst kv) = false /\
                      snd kv = YDict []) volumes.
Proof.
  unfold generate, compose_dict_of, select_engine.
  destruct (String.eqb_spec (provider (engine run_config)) "ollama") as [Ho|Ho];
    [|destruct (String.eqb_spec (provider (engine run_config)) "vllm") as [Hv|Hv]];
    simpl; [| |done].
  all: match goal with |- context [dict_get "volumes" ?sd] =>
         set (service_def := sd);
         destruct (dict_get "volumes" service_def) as [decls|]; simpl
       end.
  all: try (intros [= <-]; exists service_def, [];
            split; [auto|]; split; [by rewrite ?Ho, ?Hv|constructor]).
  all: destruct (py_iter decls) as [vols|e|]; simpl; try done;
       destruct (add_named_volumes [] vols) as [volumes|e|] eqn:Hrun; simpl; try done;
       intros [= <-]; exists service_def, volumes;
       (split; [auto|]); (split; [by rewrite ?Ho, ?Hv|]);
       apply add_named_volumes_bare in Hrun; [|constructor];
       eapply Forall_impl; [exact Hrun|];
       intros [k v] [Hk Hv']; simpl in *;
       unfold is_named_volume in Hk; apply andb_true_iff in Hk as [H1 H2];
       by apply negb_true_iff in H1, H2.
Qed.

End MoreGeneratorFacts.

(** ** More on the manager: what the calls leave alone *)

Lemma writes_of_app tr tr' : writes_of (tr ++ tr') = writes_of tr ++ writes_of tr'.
Proof. apply flat_map_app. Qed.

Lemma writes_nothing_still {A} (m : M A) :
  (forall st, snd (m st) = st) -> writes_nothing m.
Proof. intros Hm st. exists []. by rewrite Hm, app_nil_r. Qed.

Lemma writes_nothing_bind {A B} (m : M A) (k : A -> M B) :
  writes_nothing m -> (forall a, writes_nothing (k a)) -> writes_nothing (bind m k).
Proof.
  intros Hm Hk st. unfold bind. destruct (Hm st) as (evs & Htrace & Hnone).
  destruct (m st) as [[a|e|] st']; simpl in *; [|by exists evs..].
  destruct (Hk a st') as (evs' & Htrace' & Hnone').
  exists (evs ++ evs'). rewrite Htrace', Htrace, writes_of_app, Hnone, Hnone'.
  by rewrite app_assoc.
Qed.

Lemma writes_nothing_try_except {A} (body : M A) C handler :
  writes_nothing body -> (forall e, writes_nothing (handler e)) ->
  writes_nothing (try_except body C handler).
Proof.
  intros Hb Hh st. unfold try_except. destruct (Hb st) as (evs & Htrace & Hnone).
  destruct (body st) as [[a|e|] st']; simpl in *; [by exists evs| |by exists evs].
  destruct (C e); [|by exists evs].
  destruct (Hh e st') as (evs' & Htrace' & Hnone').
  exists (evs ++ evs'). rewrite Htrace', Htrace, writes_of_app, Hnone, Hnone'.
  by rewrite app_assoc.
Qed.

Lemma writes_nothing_ret {A} (a : A) : writes_nothing (ret a).
Proof. by apply writes_nothing_still. Qed.

Lemma writes_nothing_raise {A} e : writes_nothing (@raise A e).
Proof. by apply writes_nothing_still. Qed.

Lemma writes_nothing_time_time : writes_nothing time_time.
Proof. by apply writes_nothing_still. Qed.

Lemma writes_nothing_getattr attr : writes_nothing (getattr attr).
Proof.
  apply writes_nothing_still. intros st. unfold getattr. by destruct (self st !! attr).
Qed.

Lemma writes_nothing_as_str v : writes_nothing (as_str v).
Proof. apply writes_nothing_still. by destruct v. Qed.

Lemma writes_nothing_as_config v : writes_nothing (as_config v).
Proof. apply writes_nothing_still. by destruct v. Qed.

Lemma writes_nothing_emit ev : writes_of [ev] = [] -> writes_nothing (emit ev).
Proof. intros Hev st. by exists [ev]. Qed.

Lemma writes_nothing_log lvl msg : writes_nothing (log lvl msg).
Proof. by apply writes_nothing_emit. Qed.

Lemma writes_nothing_time_sleep s : writes_nothing (time_sleep s).
Proof. intros st. by exists [ESleep (s * 1000)]. Qed.

Lemma writes_nothing_path_exists {env : Env} p : writes_nothing (path_exists p).
Proof.
  apply writes_nothing_still. intros st. unfold path_exists.
  destruct (fs st !! p); [done|]. by destruct (elsewhere st p).
Qed.

Create HintDb nowrite discriminated.
#[local] Hint Resolve writes_nothing_ret writes_nothing_raise writes_nothing_time_time
  writes_nothing_getattr writes_nothing_as_str writes_nothing_as_config
  writes_nothing_log writes_nothing_time_sleep writes_nothing_path_exists : nowrite.

Ltac nowrite :=
  repeat first
    [ progress auto with nowrite
    | apply writes_nothing_emit; reflexivity
    | apply writes_nothing_bind; [|intros ?]
    | apply writes_nothing_try_except; [|intros ?]
    | match goal with |- writes_nothing (if ?b then _ else _) => destruct b end ].

Lemma session_self_from {libs : Libraries} {env : Env} calls : forall st,
  self (session calls st) =
    match last_output_path calls with
    | Some output_path => <["compose_file" := PStr output_path]> (self st)
    | None => self st
    end.
Proof.
  induction calls as [|c calls IH]; intros st; [done|].
  cbn [session]. rewrite IH. destruct c as [p| | |]; cbn [perform last_output_path].
  - rewrite generate_deployment_self.
    destruct (last_output_path calls); [|done]. apply insert_insert_eq.
  - by rewrite keeps_self_start_environment.
  - by rewrite keeps_self_stop_environment.
  - by rewrite keeps_self_execute_models.
Qed.

Section MoreManagerFacts.

Context {libs : Libraries} {env : Env}.

Lemma writes_nothing_subprocess_run argv check : writes_nothing (subprocess_run argv check).
Proof.
  intros st. unfold subprocess_run. exists [ERun argv (run_process st argv)].
  destruct (run_process st argv) as [code|why]; [|done].
  by destruct (check && negb (code =? 0)).
Qed.

Lemma writes_nothing_requests_get url : writes_nothing (requests_get url).
Proof.
  intros st. unfold requests_get. exists [EGet url (fst (http_get st url))].
  destruct (http_get st url) as [[status|k] took]; done.
Qed.

Lemma writes_nothing_requests_post url payload : writes_nothing (requests_post url payload).
Proof.
  intros st. unfold requests_post. exists [EPost url payload (http_post st url payload)].
  destruct (http_post st url payload) as [status|k]; done.
Qed.

Lemma writes_nothing_raise_for_status status : writes_nothing (raise_for_status status).
Proof. unfold raise_for_status. destruct (_ && _); auto with nowrite. Qed.

#[local] Hint Resolve writes_nothing_subprocess_run writes_nothing_requests_get
  writes_nothing_requests_post writes_nothing_raise_for_status : nowrite.

Lemma writes_nothing_for_each {A} (xs : list A) body :
  (forall x, writes_nothing (body x)) -> writes_nothing (for_each xs body).
Proof. intros Hb. induction xs as [|x xs IH]; simpl; nowrite. Qed.

Lemma writes_nothing_init_model provider model : writes_nothing (init_model provider model).
Proof. unfold init_model, _pull_ollama_model. nowrite. Qed.

Lemma writes_nothing_wait_loop fuel start_time timeout_ms url :
  writes_nothing (wait_loop fuel start_time timeout_ms url).
Proof.
  induction fuel as [|fuel IH]; simpl; [by apply writes_nothing_still|]. nowrite.
Qed.

#[local] Hint Resolve writes_nothing_for_each writes_nothing_init_model
  writes_nothing_wait_loop : nowrite.

Lemma writes_nothing_execute_models : writes_nothing execute_models.
Proof. unfold execute_models. nowrite. Qed.

Lemma writes_nothing_wait_for_health timeout : writes_nothing (_wait_for_health timeout).
Proof. unfold _wait_for_health. nowrite. Qed.

#[local] Hint Resolve writes_nothing_execute_models writes_nothing_wait_for_health : nowrite.

Lemma writes_nothing_start_environment : writes_nothing start_environment.
Proof. unfold start_environment. nowrite. Qed.

Lemma writes_nothing_stop_environment : writes_nothing stop_environment.
Proof. unfold stop_environment. nowrite. Qed.

(** X6: after any sequence of calls the attributes of the instance are
    those it started with, except that [compose_file] is the
    [output_path] of the last [generate_deployment], if there was
    one. *)
Theorem session_records_last_output_path (calls : list Call) (st : St) :
  self (session calls st) =
    match last_output_path calls with
    | Some output_path => <["compose_file" := PStr output_path]> (self st)
    | None => self st
    end.
Proof. apply session_self_from. Qed.

(** X7: [start_environment], [stop_environment] and [execute_models]
    change no attribute of the instance and write no file themselves,
    however they end: what they add to the trace holds no write of the
    process.  (What the container runtime or the engine does to the
    disk is theirs.) *)
Theorem lifecycle_calls_write_nothing (c : Call) (st : St) :
  (forall output_path, c <> GenerateDeployment output_path) ->
  self (snd (perform c st)) = self st /\
  exists evs,
    trace (snd (perform c st)) = trace st ++ evs /\ writes_of evs = [].
Proof.
  intros Hc. destruct c as [p| | |]; cbn [perform].
  - by destruct (Hc p).
  - split; [apply keeps_self_start_environment|apply writes_nothing_start_environment].
  - split; [apply keeps_self_stop_environment|apply writes_nothing_stop_environment].
  - split; [apply keeps_self_execute_models|apply writes_nothing_execute_models].
Qed.

Lemma session_writes_nothing_without_run_config calls : forall st,
  self st !! "run_config" = None ->
  exists evs, trace (session calls st) = trace st ++ evs /\ writes_of evs = [].
Proof.
  induction calls as [|c calls IH]; intros st Hnone.
  - exists []. by rewrite app_nil_r.
  - cbn [session].
    assert (self (snd (perform c st)) !! "run_config" = None /\
            exists evs, trace (snd (perform c st)) = trace st ++ evs /\
                        writes_of evs = []) as (Hnone' & evs & Htrace & Hevs).
    { destruct c as [p| | |]; cbn [perform].
      - rewrite generate_deployment_without_run_config by done. simpl.
        split; [by rewrite lookup_insert_ne|]. by exists [ECall "generate_deployment"].
      - rewrite keeps_self_start_environment.
        split; [done|apply writes_nothing_start_environment].
      - rewrite keeps_self_stop_environment.
        split; [done|apply writes_nothing_stop_environment].
      - rewrite keeps_self_execute_models.
        split; [done|apply writes_nothing_execute_models]. }
    destruct (IH _ Hnone') as (evs' & Htrace' & Hevs').
    exists (evs ++ evs'). rewrite Htrace', Htrace, writes_of_app, Hevs, Hevs'.
    by rewrite app_assoc.
Qed.

(** X8: on a manager built by [__init__], no sequence of calls makes
    the process write a file: [generate_deployment], the only method
    with an [open], raises before it each time, and the other methods
    have none. *)
Theorem session_of_new_manager_writes_nothing
    (config : RunConfig) (files : gmap string string) (now : Z) (tr : list Event)
    (calls : list Call) :
  exists evs,
    trace (session calls (mkSt (init config) files now tr)) = tr ++ evs /\
    writes_of evs = [].
Proof.
  apply (session_writes_nothing_without_run_config calls
           (mkSt (init config) files now tr)).
  simpl. by rewrite init_attributes.
Qed.

(** X9: on a new manager, [generate_deployment] to a path at which
    nothing exists (neither a regular file nor anything else, when
    [start_environment] looks), followed by [start_environment], ends
    in [FileNotFoundError] for that path, and nothing is run. *)
Theorem generate_then_start_finds_no_manifest
    (config : RunConfig) (files : gmap string string) (now : Z) (tr : list Event)
    (output_path : string) :
  let generated :=
    snd (generate_deployment output_path (mkSt (init config) files now tr)) in
  files !! output_path = None ->
  elsewhere (record [ECall "start_environment"] generated) output_path = Nothing ->
  start_environment generated =
    (Raise (FileNotFoundError
              ("Compose file " +:+ output_path +:+
               " not found. Run generate_deployment() first.")),
     mkSt (<["compose_file" := PStr output_path]> (init config)) files now
          (tr ++ [ECall "generate_deployment"; ECall "start_environment"])).
Proof.
  intros generated Hnone Hnothing. subst generated. revert Hnothing.
  rewrite generate_deployment_without_run_config
    by (simpl; by rewrite init_attributes).
  cbn [snd self fs clock trace].
  remember (record [ECall "generate_deployment"]
              (mkSt (<["compose_file" := PStr output_path]> (init config)) files now tr))
    as st1 eqn:Hst1.
  intros Hnothing.
  assert (self st1 !! "compose_file" = Some (PStr output_path)) as Hattr
    by (subst st1; apply lookup_insert_eq).
  assert (fs st1 !! output_path = None) as Hfile by (by subst st1).
  unfold start_environment, bind, emit, getattr, path_exists. simpl.
  rewrite Hattr. simpl. rewrite Hfile.
  fold (record [ECall "start_environment"] st1). rewrite Hnothing.
  subst st1. unfold raise, record. simpl. by rewrite <- app_assoc.
Qed.

(** X10: after any sequence of calls on a new manager,
    [stop_environment] runs the teardown for the path of the last
    [generate_deployment] (the default if there was none), without
    looking for the file, and returns normally whatever status the
    container runtime exits with. *)
Theorem stop_environment_tears_down_recorded_path
    (config : RunConfig) (files : gmap string string) (now : Z) (tr : list Event)
    (calls : list Call) (code : Z) :
  let st := session calls (mkSt (init config) files now tr) in
  let argv := ["docker-compose"; "-f";
               default "docker-compose.yml" (last_output_path calls); "down"] in
  let before := record [ECall "stop_environment";
                        ELog INFO "Stopping Docker containers..."] st in
  run_process before argv = Exited code ->
  stop_environment st = (Ok tt, record [ERun argv (Exited code)] before).
Proof.
  intros st argv before Hproc.
  assert (self st !! "compose_file" =
          Some (PStr (default "docker-compose.yml" (last_output_path calls)))) as Hattr.
  { unfold st. rewrite session_self_from. simpl.
    destruct (last_output_path calls); simpl.
    - apply lookup_insert_eq.
    - by rewrite init_attributes. }
  unfold stop_environment, bind, emit, log, emit, getattr. simpl.
  rewrite Hattr. simpl. unfold subprocess_run. rewrite !record_record. simpl app.
  fold before. fold argv. rewrite Hproc. simpl. unfold ret, before.
  by rewrite !record_record.
Qed.

End MoreManagerFacts.

(** ** More on the manager: how [start_environment] ends *)

Lemma raises_neither_bind {A B} (m : M A) (k : A -> M B) :
  raises_neither m -> (forall a, raises_neither (k a)) -> raises_neither (bind m k).
Proof.
  intros Hm Hk st e st'. unfold bind. specialize (Hm st).
  destruct (m st) as [[a|e0|] st0]; [apply Hk| |done].
  intros [= <- <-]. by eapply Hm.
Qed.

Lemma raises_neither_try_except {A} (body : M A) C handler :
  raises_neither body ->
  (forall e, passes_through e = true -> raises_neither (handler e)) ->
  raises_neither (try_except body C handler).
Proof.
  intros Hb Hh st e st'. unfold try_except. specialize (Hb st).
  destruct (body st) as [[a|e0|] st0] eqn:Hbody; [done| |done].
  specialize (Hb e0 st0 eq_refl).
  destruct (C e0); [by apply Hh|]. by intros [= <- <-].
Qed.

Lemma raises_neither_ret {A} (a : A) : raises_neither (ret a).
Proof. by intros st e st'. Qed.

Lemma raises_neither_raise {A} e : passes_through e = true -> raises_neither (@raise A e).
Proof. intros He st e' st'. by intros [= <- <-]. Qed.

Lemma raises_neither_emit ev : raises_neither (emit ev).
Proof. by intros st e st'. Qed.

Lemma raises_neither_log lvl msg : raises_neither (log lvl msg).
Proof. by intros st e st'. Qed.

Lemma raises_neither_time_time : raises_neither time_time.
Proof. by intros st e st'. Qed.

Lemma raises_neither_time_sleep s : raises_neither (time_sleep s).
Proof. by intros st e st'. Qed.

Lemma raises_neither_getattr attr : raises_neither (getattr attr).
Proof.
  intros st e st'. unfold getattr.
  destruct (self st !! attr); [done|]. by intros [= <- <-].
Qed.

Lemma raises_neither_as_config v : raises_neither (as_config v).
Proof. intros st e st'. destruct v; [by intros [= <- <-]|done]. Qed.

Create HintDb neither discriminated.
#[local] Hint Resolve raises_neither_ret raises_neither_emit raises_neither_log
  raises_neither_time_time raises_neither_time_sleep raises_neither_getattr
  raises_neither_as_config : neither.

Ltac neither :=
  repeat first
    [ progress auto with neither
    | apply raises_neither_raise; done
    | apply raises_neither_bind; [|intros ?]
    | apply raises_neither_try_except; [|intros ? ?]
    | match goal with |- raises_neither (if ?b then _ else _) => destruct b end ].

Section StartEnvironmentFacts.

Context {libs : Libraries} {env : Env}.

Lemma raises_neither_requests_get url : raises_neither (requests_get url).
Proof.
  intros st e st'. unfold requests_get.
  destruct (http_get st url) as [[status|k] took]; [done|]. by intros [= <- <-].
Qed.

Lemma raises_neither_requests_post url payload : raises_neither (requests_post url payload).
Proof.
  intros st e st'. unfold requests_post.
  destruct (http_post st url payload) as [status|k]; [done|]. by intros [= <- <-].
Qed.

Lemma raises_neither_raise_for_status status : raises_neither (raise_for_status status).
Proof. unfold raise_for_status. neither. Qed.

#[local] Hint Resolve raises_neither_requests_get raises_neither_requests_post
  raises_neither_raise_for_status : neither.

Lemma raises_neither_for_each {A} (xs : list A) body :
  (forall x, raises_neither (body x)) -> raises_neither (for_each xs body).
Proof. intros Hb. induction xs as [|x xs IH]; simpl; neither. Qed.

Lemma raises_neither_init_model provider model : raises_neither (init_model provider model).
Proof. unfold init_model, _pull_ollama_model. neither. Qed.

Lemma raises_neither_wait_loop fuel start_time timeout_ms url :
  raises_neither (wait_loop fuel start_time timeout_ms url).
Proof. induction fuel as [|fuel IH]; simpl; [done|]. neither. Qed.

#[local] Hint Resolve raises_neither_for_each raises_neither_init_model
  raises_neither_wait_loop : neither.

Lemma raises_neither_execute_models : raises_neither execute_models.
Proof. unfold execute_models. neither. Qed.

Lemma raises_neither_wait_for_health timeout : raises_neither (_wait_for_health timeout).
Proof. unfold _wait_for_health. neither. Qed.

Lemma keeps_state_path_exists p st : snd (path_exists p st) = st.
Proof.
  unfold path_exists. destruct (fs st !! p); [done|]. by destruct (elsewhere st p).
Qed.

Lemma path_exists_raises p st e st' :
  path_exists p st = (Raise e, st') ->
  exists msg, e = PermissionError msg \/ e = OSError msg.
Proof.
  unfold path_exists. destruct (fs st !! p); [done|].
  destruct (elsewhere st p) as [| |msg|msg]; [done..| |];
    intros [= <- _]; exists msg; auto.
Qed.

(** [start_environment] once the manifest was found: the [try]
    statement, entered after the two first records. *)
Lemma start_environment_checked st compose_file :
  self st !! "compose_file" = Some (PStr compose_file) ->
  fst (path_exists compose_file (record [ECall "start_environment"] st)) = Ok true ->
  start_environment st =
    try_except
      (subprocess_run ["docker-compose"; "-f"; compose_file; "up"; "-d"] true ;;
       log INFO "Containers started successfully." ;;
       _wait_for_health 60 ;;
       execute_models)
      is_CalledProcessError
      (fun e =>
         log ERROR ("Failed to start environment: " +:+ str_exn e) ;;
         raise (RuntimeError "Docker Compose failed to start."))
      (record [ECall "start_environment"; ELog INFO "Starting Docker containers..."] st).
Proof.
  intros Hattr Hfile.
  unfold start_environment.
  unfold bind at 1. unfold emit at 1.
  unfold bind at 1. unfold bind at 1. unfold getattr at 1. simpl self.
  rewrite Hattr. simpl as_str. unfold ret at 1.
  unfold bind at 1.
  pose proof (keeps_state_path_exists compose_file (record [ECall "start_environment"] st))
    as Hsame.
  destruct (path_exists compose_file (record [ECall "start_environment"] st))
    as [r s] eqn:Hexists.
  simpl in Hfile, Hsame. subst r s.
  change (negb true) with false. cbv iota.
  unfold bind at 1. unfold log at 1, emit at 1. cbv beta.
  by rewrite record_record.
Qed.

Lemma path_exists_on_file st compose_file content :
  fs st !! compose_file = Some content ->
  fst (path_exists compose_file (record [ECall "start_environment"] st)) = Ok true.
Proof.
  intros Hfile. unfold path_exists.
  change (fs (record [ECall "start_environment"] st)) with (fs st).
  by rewrite Hfile.
Qed.

(** X11: when the container runtime cannot be launched, whatever the
    reason (not installed, not executable, another failure of the
    operating system, an argument that cannot be passed), the exception
    of [subprocess.run] leaves [start_environment] as it is, of its own
    class and never as [RuntimeError], and neither the poll nor the
    model loading is entered. *)
Theorem start_environment_spawn_failure_propagates
    (st : St) (compose_file content : string) (why : LaunchError) :
  let argv := ["docker-compose"; "-f"; compose_file; "up"; "-d"] in
  let before := record [ECall "start_environment";
                         ELog INFO "Starting Docker containers..."] st in
  self st !! "compose_file" = Some (PStr compose_file) ->
  fs st !! compose_file = Some content ->
  run_process before argv = SpawnFailed why ->
  start_environment st =
    (Raise (launch_exn why), record [ERun argv (SpawnFailed why)] before) /\
  (forall msg, launch_exn why <> RuntimeError msg).
Proof.
  intros argv before Hattr Hfile Hproc.
  rewrite (start_environment_checked _ _ Hattr (path_exists_on_file _ _ _ Hfile)).
  fold before.
  unfold try_except, bind at 1, subprocess_run. fold argv. rewrite Hproc.
  split; [by destruct why|]. intros msg. by destruct why.
Qed.

(** X12: [start_environment] raises [RuntimeError] only when the
    container runtime ran and exited with a non-zero status; no failure
    of the poll or of the model loading is turned into it. *)
Theorem start_environment_RuntimeError_means_nonzero_exit
    (st st' : St) (msg : string) :
  start_environment st = (Raise (RuntimeError msg), st') ->
  exists compose_file code,
    let argv := ["docker-compose"; "-f"; compose_file; "up"; "-d"] in
    let before := record [ECall "start_environment";
                           ELog INFO "Starting Docker containers..."] st in
    self st !! "compose_file" = Some (PStr compose_file) /\
    run_process before argv = Exited code /\
    code <> 0 /\
    msg = "Docker Compose failed to start." /\
    st' = record [ERun argv (Exited code);
                  ELog ERROR ("Failed to start environment: " +:+
                              str_exn (CalledProcessError argv code))] before.
Proof.
  destruct (self st !! "compose_file") as [[compose_file|c]|] eqn:Hattr.
  2,3: unfold start_environment, bind, emit, getattr; simpl; rewrite Hattr; done.
  destruct (fst (path_exists compose_file (record [ECall "start_environment"] st)))
    as [[]|e|] eqn:Hfile.
  2-4: unfold start_environment, bind, emit, getattr; simpl; rewrite Hattr; simpl;
       pose proof (keeps_state_path_exists compose_file
                     (record [ECall "start_environment"] st)) as Hsame;
       destruct (path_exists compose_file (record [ECall "start_environment"] st))
         as [r s] eqn:Hexists; simpl in Hfile, Hsame; subst r s; try done;
       destruct (path_exists_raises _ _ _ _ Hexists) as [why [-> | ->]]; done.
  rewrite (start_environment_checked _ _ Hattr Hfile).
  set (before := record _ st).
  set (argv := ["docker-compose"; "-f"; compose_file; "up"; "-d"]).
  unfold try_except. unfold bind at 1. unfold subprocess_run.
  destruct (run_process before argv) as [code|spawn] eqn:Hproc; [|by destruct spawn].
  destruct (Z.eqb_spec code 0) as [->|Hcode]; simpl.
  - match goal with |- context [bind ?m ?k ?s] =>
      pose proof (raises_neither_bind m k) as Hrest; destruct (bind m k s) as [[u|e|] s'] eqn:Hrun
    end; [done| |done].
    assert (passes_through e = true) as He.
    { eapply Hrest; [| |exact Hrun]; [neither|intros _].
      apply raises_neither_bind; [apply raises_neither_wait_for_health|intros _].
      apply raises_neither_execute_models. }
    destruct e; try done.
  - unfold bind, log, emit, raise. intros [= <- <-].
    exists compose_file, code. cbv zeta. fold argv. rewrite record_record.
    by repeat split.
Qed.

End StartEnvironmentFacts.

(** ** More on the manager: the poll and the models *)

Section PollAndModelsFacts.

Context {libs : Libraries} {env : Env}.

Lemma init_model_vllm m st :
  init_model "vllm" m st =
    (Ok tt,
     record [ELog INFO ("Initializing model: " +:+ name m +:+ "...");
             ELog INFO ("vLLM engine should be loading " +:+ name m +:+
                        " automatically.")] st).
Proof. unfold init_model, bind, log, emit. simpl. by rewrite record_record. Qed.

Lemma for_each_vllm ms : forall st,
  for_each ms (init_model "vllm") st =
    (Ok tt,
     record (flat_map (fun m =>
                         [ELog INFO ("Initializing model: " +:+ name m +:+ "...");
                          ELog INFO ("vLLM engine should be loading " +:+ name m +:+
                                     " automatically.")]) ms) st).
Proof.
  induction ms as [|m ms IH]; intros st; simpl.
  - unfold ret. by rewrite record_nil.
  - unfold bind. rewrite init_model_vllm, IH. by rewrite record_record.
Qed.

Lemma logs_hold_no_request (f : ModelConfig -> list Event) (ms : list ModelConfig) :
  (forall m, posts_of (f m) = [] /\ gets_of (f m) = [] /\ runs_of (f m) = []) ->
  posts_of (flat_map f ms) = [] /\ gets_of (flat_map f ms) = [] /\
  runs_of (flat_map f ms) = [].
Proof.
  intros Hf. induction ms as [|m ms (IH1 & IH2 & IH3)]; simpl; [done|].
  destruct (Hf m) as (H1 & H2 & H3).
  by rewrite posts_of_app, gets_of_app, runs_of_app, H1, H2, H3, IH1, IH2, IH3.
Qed.

(** X13: for vllm, [execute_models] sends nothing: per model it logs
    the initialization line and the line that says the engine should be
    loading the model, and it returns. *)
Theorem execute_models_vllm_only_logs (st : St) (config : RunConfig) :
  self st !! "config" = Some (PConfig config) ->
  provider (engine config) = "vllm" ->
  execute_models st =
    (Ok tt,
     record (ECall "execute_models" ::
             flat_map (fun m =>
                         [ELog INFO ("Initializing model: " +:+ name m +:+ "...");
                          ELog INFO ("vLLM engine should be loading " +:+ name m +:+
                                     " automatically.")])
                      (models config)) st) /\
  posts_of (trace (snd (execute_models st))) = posts_of (trace st).
Proof.
  intros Hattr Hp.
  assert (execute_models st =
    (Ok tt,
     record (ECall "execute_models" ::
             flat_map (fun m =>
                         [ELog INFO ("Initializing model: " +:+ name m +:+ "...");
                          ELog INFO ("vLLM engine should be loading " +:+ name m +:+
                                     " automatically.")])
                      (models config)) st)) as Hrun.
  { unfold execute_models, bind, emit, getattr. simpl. rewrite Hattr. simpl.
    rewrite Hp, for_each_vllm. by rewrite record_record. }
  split; [done|]. rewrite Hrun. simpl. rewrite posts_of_app. simpl.
  match goal with |- context [flat_map ?f (models config)] =>
    destruct (logs_hold_no_request f (models config)) as (-> & _); [done|]
  end.
  by rewrite app_nil_r.
Qed.

(** The loop when the next [m] probes are refused and the one after
    them is answered. *)
Lemma wait_loop_after_refusals start_time timeout_ms url d status d' total :
  (forall st', (length (gets_of (trace st')) < total)%nat ->
     exists k, http_get st' url = (Failed k, d) /\
               is_requests_ConnectionError (RequestException k) = true) ->
  (forall st', length (gets_of (trace st')) = total ->
     http_get st' url = (Response status, d')) ->
  forall m fuel st,
    (length (gets_of (trace st)) + m = total)%nat ->
    (m < fuel)%nat ->
    clock st - start_time + Z.of_nat m * (Z.of_N d + 2000) < timeout_ms ->
    exists st',
      wait_loop fuel start_time timeout_ms url st = (Ok tt, st') /\
      length (gets_of (trace st')) = S total /\
      clock st' = clock st + Z.of_nat m * (Z.of_N d + 2000) + Z.of_N d'.
Proof.
  intros Hrefused Hanswered.
  induction m as [|m IH]; intros fuel st Hcount Hfuel Htime;
    (destruct fuel as [|fuel]; [lia|]).
  - rewrite (wait_loop_reachable _ _ _ _ _ status d'); [|lia|apply Hanswered; lia].
    eexists. split; [done|]. simpl. rewrite gets_of_app, length_app. simpl.
    split; lia.
  - destruct (Hrefused st) as (k & Hget & Hconn); [lia|].
    rewrite (wait_loop_retry _ _ _ _ _ k d); [|lia|done|done].
    match goal with |- context [wait_loop fuel _ _ _ ?s] =>
      destruct (IH fuel s) as (st' & Hrun & Hlen & Hclock)
    end.
    + simpl. rewrite gets_of_app, length_app. simpl. lia.
    + lia.
    + simpl. lia.
    + exists st'. split; [done|]. split; [done|]. rewrite Hclock. simpl. lia.
Qed.

(** X14: when the port refuses the next [n] connections and answers
    the one after, with [n] polling rounds fitting before the deadline,
    [_wait_for_health] returns after exactly [n + 1] probes, two
    seconds apart. *)
Theorem wait_for_health_after_refusals
    (st : St) (config : RunConfig) (timeout : Z) (n : nat) (d d' : N) (status : Z) :
  let url := if String.eqb (provider (engine config)) "ollama"
             then "http://localhost:11434" else "http://localhost:8000" in
  let probed := length (gets_of (trace st)) in
  self st !! "config" = Some (PConfig config) ->
  (forall st', (length (gets_of (trace st')) < probed + n)%nat ->
     exists k, http_get st' url = (Failed k, d) /\
               is_requests_ConnectionError (RequestException k) = true) ->
  (forall st', length (gets_of (trace st')) = (probed + n)%nat ->
     http_get st' url = (Response status, d')) ->
  Z.of_nat n * (Z.of_N d + 2000) < timeout * 1000 ->
  exists st',
    _wait_for_health timeout st = (Ok tt, st') /\
    length (gets_of (trace st')) = (probed + n + 1)%nat /\
    clock st' = clock st + Z.of_nat n * (Z.of_N d + 2000) + Z.of_N d'.
Proof.
  intros url probed Hattr Hrefused Hanswered Htime.
  unfold _wait_for_health, bind, emit, time_time, getattr, log, emit. simpl.
  rewrite Hattr. simpl. rewrite record_record. simpl app.
  replace ("http://localhost:" +:+
           (if String.eqb (provider (engine config)) "ollama" then "11434" else "8000"))
    with url by (unfold url; by destruct (String.eqb _ _)).
  match goal with |- context [wait_loop _ _ _ _ ?s] =>
    destruct (wait_loop_after_refusals (clock st) (timeout * 1000) url d status d'
                (probed + n) Hrefused Hanswered n (poll_budget timeout) s)
      as (st' & Hrun & Hlen & Hclock)
  end.
  - simpl. rewrite gets_of_app. simpl. rewrite app_nil_r. done.
  - unfold poll_budget.
    assert (Z.of_nat n <= timeout / 2) by (apply Z.div_le_lower_bound; lia).
    lia.
  - simpl. lia.
  - exists st'. split; [done|]. split; [lia|]. rewrite Hclock. done.
Qed.

(** The loop when every probe is refused and none takes longer than
    [dmax]. *)
Lemma wait_loop_never_reachable start_time timeout_ms url dmax :
  (forall st', exists k took,
     http_get st' url = (Failed k, took) /\
     is_requests_ConnectionError (RequestException k) = true /\
     Z.of_N took <= dmax) ->
  forall fuel st,
    (0 < fuel)%nat ->
    timeout_ms - (clock st - start_time) <= 2000 * (Z.of_nat fuel - 1) ->
    clock st - start_time < timeout_ms + dmax + 2000 ->
    exists st',
      wait_loop fuel start_time timeout_ms url st =
        (Raise (TimeoutError "Engine failed to become responsive within timeout."), st') /\
      timeout_ms <= clock st' - start_time < timeout_ms + dmax + 2000.
Proof.
  intros Hrefused.
  induction fuel as [|fuel IH]; intros st Hpos Hfuel Hbound; [lia|].
  destruct (Z.lt_ge_cases (clock st - start_time) timeout_ms) as [Hearly|Hlate].
  - destruct (Hrefused st) as (k & took & Hget & Hconn & Htook).
    rewrite (wait_loop_retry _ _ _ _ _ k took); [|done..].
    apply IH; simpl; lia.
  - rewrite wait_loop_deadline by done. exists st. split; [done|]. lia.
Qed.

(** X15: when every probe is refused and none takes longer than
    [dmax] milliseconds, [_wait_for_health] raises [TimeoutError], not
    before the timeout and less than one probe and one sleep after
    it. *)
Theorem wait_for_health_times_out_within_one_round
    (st : St) (config : RunConfig) (timeout dmax : Z) :
  self st !! "config" = Some (PConfig config) ->
  0 <= timeout ->
  (forall st' url, exists k took,
     http_get st' url = (Failed k, took) /\
     is_requests_ConnectionError (RequestException k) = true /\
     Z.of_N took <= dmax) ->
  exists st',
    _wait_for_health timeout st =
      (Raise (TimeoutError "Engine failed to become responsive within timeout."), st') /\
    timeout * 1000 <= clock st' - clock st < timeout * 1000 + dmax + 2000.
Proof.
  intros Hattr Htimeout Hrefused.
  unfold _wait_for_health, bind, emit, time_time, getattr, log, emit. simpl.
  rewrite Hattr. simpl. rewrite record_record. simpl app.
  destruct (poll_budget_enough timeout) as [Hpos Hfuel].
  destruct (Hrefused st EmptyString) as (k0 & took0 & _ & _ & Hdmax).
  match goal with |- context [wait_loop _ _ _ ?u ?s] =>
    destruct (wait_loop_never_reachable (clock st) (timeout * 1000) u dmax
                (fun st' => Hrefused st' u) (poll_budget timeout) s)
      as (st' & Hrun & Hclock)
  end.
  - done.
  - simpl. lia.
  - simpl. lia.
  - exists st'. split; [done|]. lia.
Qed.

End PollAndModelsFacts.

(** ** More on the manager: the whole of [start_environment] *)

Section HappyPathFacts.

Context {libs : Libraries} {env : Env}.

Lemma wait_for_health_first_probe st config timeout status took :
  let url := if String.eqb (provider (engine config)) "ollama"
             then "http://localhost:11434" else "http://localhost:8000" in
  let entered := record [ECall "_wait_for_health";
                         ELog INFO ("Waiting for engine at " +:+ url +:+ "...")] st in
  self st !! "config" = Some (PConfig config) ->
  0 < timeout ->
  http_get entered url = (Response status, took) ->
  _wait_for_health timeout st =
    (Ok tt, record [EGet url (Response status); ELog INFO "Engine is responsive."]
              (tick (Z.of_N took) entered)).
Proof.
  intros url entered Hattr Htimeout Hget.
  unfold _wait_for_health, bind, emit, time_time, getattr, log, emit. simpl.
  rewrite Hattr. simpl. rewrite record_record. simpl app.
  replace ("http://localhost:" +:+
           (if String.eqb (provider (engine config)) "ollama" then "11434" else "8000"))
    with url by (unfold url; by destruct (String.eqb _ _)).
  fold entered.
  replace (poll_budget timeout) with (S (Z.to_nat (timeout / 2) + 1))
    by (unfold poll_budget; lia).
  apply wait_loop_reachable; [simpl; lia|done].
Qed.

Lemma for_each_ollama_all_succeed ms : forall st,
  (forall s url payload, pull_failure (http_post s url payload) = None) ->
  exists new,
    for_each ms (init_model "ollama") st = (Ok tt, record new st) /\
    gets_of new = [] /\ runs_of new = [] /\
    map (fun p => (fst (fst p), snd (fst p))) (posts_of new) =
      map (fun m => ("http://localhost:11434/api/pull",
                     [("name", YStr (name m)); ("stream", YScalar "False")])) ms.
Proof.
  intros st Hpulls. revert st.
  induction ms as [|m ms IH]; intros st.
  - exists []. simpl. unfold ret. by rewrite record_nil.
  - rewrite for_each_ollama_step. rewrite Hpulls.
    match goal with |- context [for_each ms _ ?s] =>
      destruct (IH s) as (new & Hrun & Hgets & Hruns & Hposts)
    end.
    eexists. split; [rewrite Hrun, !record_record; reflexivity|].
    rewrite !gets_of_app, !runs_of_app, !posts_of_app, Hgets, Hruns. simpl.
    by rewrite Hposts.
Qed.

Lemma execute_models_all_succeed st config :
  self st !! "config" = Some (PConfig config) ->
  (forall s url payload, pull_failure (http_post s url payload) = None) ->
  exists new,
    execute_models st = (Ok tt, record new st) /\
    gets_of new = [] /\ runs_of new = [] /\
    map (fun p => (fst (fst p), snd (fst p))) (posts_of new) =
      if String.eqb (provider (engine config)) "ollama"
      then map (fun m => ("http://localhost:11434/api/pull",
                          [("name", YStr (name m)); ("stream", YScalar "False")]))
               (models config)
      else [].
Proof.
  intros Hattr Hpulls.
  unfold execute_models, bind at 1, emit. unfold bind at 1, bind at 1, getattr. simpl self.
  rewrite Hattr. simpl as_config. unfold ret at 1. cbv zeta.
  destruct (String.eqb_spec (provider (engine config)) "ollama") as [->|Ho].
  - destruct (for_each_ollama_all_succeed (models config)
                (record [ECall "execute_models"] st) Hpulls)
      as (new & Hrun & Hgets & Hruns & Hposts).
    eexists. split; [rewrite Hrun, record_record; reflexivity|].
    rewrite gets_of_app, runs_of_app, posts_of_app, Hgets, Hruns. by simpl.
  - destruct (String.eqb_spec (provider (engine config)) "vllm") as [Hv|Hv].
    + rewrite Hv, for_each_vllm, record_record.
      eexists. split; [reflexivity|].
      rewrite gets_of_app, runs_of_app, posts_of_app. simpl.
      match goal with |- context [flat_map ?f (models config)] =>
        destruct (logs_hold_no_request f (models config)) as (-> & -> & ->); done
      end.
    + rewrite for_each_other_provider, record_record by done.
      eexists. split; [reflexivity|].
      rewrite gets_of_app, runs_of_app, posts_of_app. simpl.
      match goal with |- context [flat_map ?f (models config)] =>
        destruct (logs_hold_no_request f (models config)) as (-> & -> & ->); done
      end.
Qed.

(** X16: with the manifest in place, a container runtime that exits
    with 0, a port that answers the first probe and pulls that all
    succeed, [start_environment] returns; on the way it runs the
    container runtime once, probes once, and posts one pull per
    configured model, in order, for ollama and none for another
    provider. *)
Theorem start_environment_brings_everything_up
    (st : St) (config : RunConfig) (compose_file content : string) :
  let url := if String.eqb (provider (engine config)) "ollama"
             then "http://localhost:11434" else "http://localhost:8000" in
  self st !! "compose_file" = Some (PStr compose_file) ->
  self st !! "config" = Some (PConfig config) ->
  fs st !! compose_file = Some content ->
  (forall s argv, run_process s argv = Exited 0) ->
  (forall s, exists status took, http_get s url = (Response status, took)) ->
  (forall s url' payload, pull_failure (http_post s url' payload) = None) ->
  exists new st',
    start_environment st = (Ok tt, st') /\
    trace st' = trace st ++ new /\
    runs_of new = [["docker-compose"; "-f"; compose_file; "up"; "-d"]] /\
    map fst (gets_of new) = [url] /\
    map (fun p => (fst (fst p), snd (fst p))) (posts_of new) =
      if String.eqb (provider (engine config)) "ollama"
      then map (fun m => ("http://localhost:11434/api/pull",
                          [("name", YStr (name m)); ("stream", YScalar "False")]))
               (models config)
      else [].
Proof.
  intros url Hfile_attr Hconfig Hfile Hruns Hgets Hpulls.
  rewrite (start_environment_checked _ _ Hfile_attr (path_exists_on_file _ _ _ Hfile)).
  unfold try_except. unfold bind at 1. unfold subprocess_run. rewrite Hruns.
  change (true && negb (0 =? 0)) with false. cbv iota.
  unfold bind at 1. unfold log at 1, emit at 1. cbv beta.
  rewrite !record_record. simpl app.
  set (started := record _ st).
  destruct (Hgets (record [ECall "_wait_for_health";
                           ELog INFO ("Waiting for engine at " +:+ url +:+ "...")] started))
    as (status & took & Hget).
  unfold bind at 1.
  rewrite (wait_for_health_first_probe started config 60 status took Hconfig
             ltac:(lia) Hget).
  match goal with |- context [execute_models ?s] =>
    destruct (execute_models_all_succeed s config Hconfig Hpulls)
      as (new & Hrun & Hg & Hr & Hp)
  end.
  rewrite Hrun. eexists _, _. split; [reflexivity|].
  split; [unfold started; simpl; rewrite <- !app_assoc; reflexivity|].
  rewrite !runs_of_app, !gets_of_app, !posts_of_app, Hg, Hr. simpl.
  rewrite ?app_nil_r. by rewrite Hp.
Qed.

End HappyPathFacts.

(** ** The [deploy] command *)

Section CliFacts.

Context {libs : Libraries} {env : Env} {loader : ConfigLoader} {console : Console}.

(** X17: [deploy] never returns normally.  It ends in
    [typer.Exit(code=1)], or in the exception of a [console.print] of
    its own that raised: the line on the missing file and the line on
    the loading are printed outside the [try], the line on the failure
    in its handler.  Without the configuration file it prints that the
    file was not found; with a file that does not load it prints the
    loader's exception; with one that loads it prints the
    [AttributeError] of [generate_deployment], for every provider and
    with or without [dry_run].  It never runs the container runtime and
    writes no file itself. *)
Theorem deploy_never_succeeds (config_path : string) (dry_run : bool) (st : St) :
  deploy config_path dry_run st =
    (if os_path_exists config_path st then
       let loading :=
         "[bold blue]Loading configuration from " +:+ config_path +:+
         "...[/bold blue]" in
       match console_print st loading with
       | Some e => (Raised e, [], st)
       | None =>
           let caught :=
             match load_run_config st config_path with
             | inl e => (e, st)
             | inr run_config =>
                 (AttributeError "run_config",
                  mkSt (init run_config) (fs st) (clock st)
                       (trace st ++ [ECall "generate_deployment"]))
             end in
           let failed :=
             "[bold red]Deployment failed:[/bold red] " +:+ str_exn (fst caught) in
           match console_print (snd caught) failed with
           | Some e => (Raised e, [loading], snd caught)
           | None => (Exit 1, [loading; failed], snd caught)
           end
       end
     else
       let not_found :=
         "[bold red]Error:[/bold red] Config file '" +:+ config_path +:+
         "' not found." in
       match console_print st not_found with
       | Some e => (Raised e, [], st)
       | None => (Exit 1, [not_found], st)
       end) /\
  (fst (fst (deploy config_path dry_run st)) = Exit 1 \/
   exists s text e,
     console_print s text = Some e /\
     fst (fst (deploy config_path dry_run st)) = Raised e) /\
  runs_of (trace (snd (deploy config_path dry_run st))) = runs_of (trace st) /\
  exists evs,
    trace (snd (deploy config_path dry_run st)) = trace st ++ evs /\
    writes_of evs = [].
Proof.
  assert (deploy config_path dry_run st =
    (if os_path_exists config_path st then
       let loading :=
         "[bold blue]Loading configuration from " +:+ config_path +:+
         "...[/bold blue]" in
       match console_print st loading with
       | Some e => (Raised e, [], st)
       | None =>
           let caught :=
             match load_run_config st config_path with
             | inl e => (e, st)
             | inr run_config =>
                 (AttributeError "run_config",
                  mkSt (init run_config) (fs st) (clock st)
                       (trace st ++ [ECall "generate_deployment"]))
             end in
           let failed :=
             "[bold red]Deployment failed:[/bold red] " +:+ str_exn (fst caught) in
           match console_print (snd caught) failed with
           | Some e => (Raised e, [loading], snd caught)
           | None => (Exit 1, [loading; failed], snd caught)
           end
       end
     else
       let not_found :=
         "[bold red]Error:[/bold red] Config file '" +:+ config_path +:+
         "' not found." in
       match console_print st not_found with
       | Some e => (Raised e, [], st)
       | None => (Exit 1, [not_found], st)
       end)) as Hrun.
  { unfold deploy, deploy_try.
    destruct (os_path_exists config_path st); [|done]. cbn [negb]. cbv zeta.
    destruct (console_print st _) as [e|]; [done|].
    destruct (load_run_config st config_path) as [e|run_config]; [done|].
    rewrite generate_deployment_without_run_config
      by (simpl; by rewrite init_attributes).
    simpl. unfold record, init. simpl. by rewrite insert_insert_eq. }
  split; [exact Hrun|]. rewrite Hrun. clear Hrun.
  assert (forall s, exists evs, trace s = trace s ++ evs /\ writes_of evs = [])
    as Hsame by (intros s; exists []; by rewrite app_nil_r).
  destruct (os_path_exists config_path st); cbv zeta.
  - destruct (console_print st _) as [e|] eqn:Hloading.
    { split; [right; eauto|]. split; [done|apply Hsame]. }
    set (caught := match load_run_config st config_path with
                   | inl e => _ | inr run_config => _ end).
    assert (runs_of (trace (snd caught)) = runs_of (trace st) /\
            exists evs, trace (snd caught) = trace st ++ evs /\ writes_of evs = [])
      as [Hruns Hwrites].
    { subst caught. destruct (load_run_config st config_path) as [e|run_config]; simpl.
      - split; [done|apply Hsame].
      - rewrite runs_of_app. simpl. split; [by rewrite app_nil_r|].
        by exists [ECall "generate_deployment"]. }
    destruct (console_print (snd caught) _) as [e|] eqn:Hfailed; simpl.
    + split; [right; eauto|]. by split.
    + split; [by left|]. by split.
  - destruct (console_print st _) as [e|] eqn:Hnot_found; simpl.
    + split; [right; eauto|]. split; [done|apply Hsame].
    + split; [by left|]. split; [done|apply Hsame].
Qed.

End CliFacts.

(** ** The further statements on the sample instances *)

(** X1 on an adapter whose service has no volumes. *)
Lemma generate_without_volumes_key_witness :
  select_engine (libs := no_volumes_libs) three_models =
    Ok ("ollama", [("image", YStr "ollama/ollama:latest")]) /\
  dict_get "volumes" [("image", YStr "ollama/ollama:latest")] = None /\
  generate (libs := no_volumes_libs) three_models =
    Ok (demo_dump
          (YDict [("version", YStr "3.8");
                  ("services",
                   YDict [("ollama", YDict [("image", YStr "ollama/ollama:latest")])]);
                  ("volumes", YDict [])])).
Proof.
  split; [reflexivity|]. split; [reflexivity|].
  exact (generate_without_volumes_key (libs := no_volumes_libs) three_models
           "ollama" [("image", YStr "ollama/ollama:latest")] eq_refl eq_refl).
Defined.

(** X2 on an adapter with a long-syntax volume between two short
    ones. *)
Lemma generate_rejects_non_string_volume_witness :
  generate (libs := long_syntax_libs) three_models = Raise (AttributeError "split").
Proof.
  apply (generate_rejects_non_string_volume (libs := long_syntax_libs) three_models
           "ollama" (OllamaEngine (Libraries := long_syntax_libs)
                       (model_dump (engine three_models)))
           ["data:/var/lib/x"]
           (YDict [("type", YStr "bind"); ("source", YStr "/host"); ("target", YStr "/x")])
           [YStr "cache:/c"]);
    [reflexivity|reflexivity|discriminate].
Defined.

(** X3 on an adapter that declares [models] twice and a relative
    path. *)
Lemma generate_volume_order_witness :
  exists volumes,
    compose_dict_of (libs := repeated_volume_libs) three_models =
      Ok (YDict [("version", YStr "3.8");
                 ("services",
                  YDict [("ollama",
                          YDict (OllamaEngine (Libraries := repeated_volume_libs)
                                   (model_dump (engine three_models))))]);
                 ("volumes", YDict volumes)]) /\
    map fst volumes = ["models"; "cache"] /\
    NoDup (map fst volumes).
Proof.
  apply (generate_volume_order (libs := repeated_volume_libs) three_models "ollama"
           (OllamaEngine (Libraries := repeated_volume_libs)
              (model_dump (engine three_models)))
           ["models:/m"; "./cfg:/etc/x"; "cache:/c"; "models:/backup"]);
    reflexivity.
Defined.

(** X5 on the sample ollama adapter. *)
Lemma generate_ok_shape_witness :
  exists text service_def volumes,
    generate (libs := demo_libs) three_models = Ok text /\
    (provider (engine three_models) = "ollama" /\
     service_def = demo_ollama (model_dump (engine three_models))
     \/
     provider (engine three_models) = "vllm" /\
     service_def = demo_vllm (model_dump (engine three_models))) /\
    text = demo_dump
             (YDict [("version", YStr "3.8");
                     ("services",
                      YDict [(provider (engine three_models), YDict service_def)]);
                     ("volumes", YDict volumes)]) /\
    Forall (fun kv => py_in_char "/" (fst kv) = false /\
                      py_in_char "~" (fst kv) = false /\
                      snd kv = YDict []) volumes.
Proof.
  eexists.
  destruct (generate_ok_shape (libs := demo_libs) three_models _ eq_refl)
    as (service_def & volumes & H).
  exists service_def, volumes. split; [reflexivity|exact H].
Defined.

(** X7 for [stop_environment] on a manager with a leftover manifest. *)
Lemma lifecycle_calls_write_nothing_witness :
  self (snd (perform (libs := demo_libs) (env := env_compose_fails)
               StopEnvironment st_leftover)) = self st_leftover /\
  exists evs,
    trace (snd (perform (libs := demo_libs) (env := env_compose_fails)
                  StopEnvironment st_leftover)) = trace st_leftover ++ evs /\
    writes_of evs = [].
Proof.
  apply (lifecycle_calls_write_nothing (libs := demo_libs)
           (env := env_compose_fails) StopEnvironment st_leftover).
  discriminate.
Defined.

(** X9 on a new manager in an empty directory. *)
Lemma generate_then_start_finds_no_manifest_witness :
  (∅ : gmap string string) !! "out.yml" = None /\
  elsewhere (Env := env_up)
    (record [ECall "start_environment"]
       (snd (generate_deployment (libs := demo_libs) (env := env_up) "out.yml"
               (mkSt (init three_models) ∅ 0 []))))
    "out.yml" = Nothing /\
  fst (start_environment (libs := demo_libs) (env := env_up)
         (snd (generate_deployment (libs := demo_libs) (env := env_up) "out.yml"
                 (mkSt (init three_models) ∅ 0 [])))) =
    Raise (FileNotFoundError
             "Compose file out.yml not found. Run generate_deployment() first.").
Proof.
  assert ((∅ : gmap string string) !! "out.yml" = None) as Hnone by reflexivity.
  assert (elsewhere (Env := env_up)
            (record [ECall "start_environment"]
               (snd (generate_deployment (libs := demo_libs) (env := env_up) "out.yml"
                       (mkSt (init three_models) ∅ 0 []))))
            "out.yml" = Nothing) as Hnothing by reflexivity.
  split; [exact Hnone|]. split; [exact Hnothing|].
  rewrite (generate_then_start_finds_no_manifest (libs := demo_libs) (env := env_up)
             three_models ∅ 0 [] "out.yml" Hnone Hnothing).
  reflexivity.
Defined.

(** X10 after a failed [generate_deployment] to ["out.yml"], with a
    container runtime that exits with 1. *)
Lemma stop_environment_tears_down_recorded_path_witness :
  fst (stop_environment (env := env_compose_fails)
         (session (libs := demo_libs) (env := env_compose_fails)
            [StartEnvironment; GenerateDeployment "out.yml"]
            (mkSt (init three_models) ∅ 0 []))) = Ok tt /\
  runs_of (trace (snd (stop_environment (env := env_compose_fails)
         (session (libs := demo_libs) (env := env_compose_fails)
            [StartEnvironment; GenerateDeployment "out.yml"]
            (mkSt (init three_models) ∅ 0 []))))) =
    [["docker-compose"; "-f"; "out.yml"; "down"]].
Proof.
  rewrite (stop_environment_tears_down_recorded_path (libs := demo_libs)
             (env := env_compose_fails) three_models ∅ 0 []
             [StartEnvironment; GenerateDeployment "out.yml"] 1 ltac:(reflexivity)).
  split; reflexivity.
Defined.

(** X11 where the container runtime is not installed. *)
Lemma start_environment_spawn_failure_propagates_witness :
  self st_leftover !! "compose_file" = Some (PStr "docker-compose.yml") /\
  fs st_leftover !! "docker-compose.yml" = Some "version: '3.8'" /\
  fst (start_environment (libs := demo_libs) (env := env_no_docker) st_leftover) =
    Raise (FileNotFoundError "docker-compose") /\
  calls_of "_wait_for_health"
    (trace (snd (start_environment (libs := demo_libs) (env := env_no_docker) st_leftover))) =
    0%nat.
Proof.
  split; [reflexivity|]. split; [reflexivity|].
  rewrite (proj1 (start_environment_spawn_failure_propagates (libs := demo_libs)
             (env := env_no_docker) st_leftover "docker-compose.yml" "version: '3.8'"
             (ExecutableNotFound "docker-compose")
             ltac:(reflexivity) ltac:(reflexivity) ltac:(reflexivity))).
  split; reflexivity.
Defined.

(** With a [docker-compose] on the path that may not be executed,
    [start_environment] ends in [PermissionError]. *)
Example start_environment_docker_not_executable :
  fst (start_environment (libs := demo_libs) (env := env_docker_not_executable)
         st_leftover) =
    Raise (PermissionError "docker-compose") /\
  calls_of "_wait_for_health"
    (trace (snd (start_environment (libs := demo_libs) (env := env_docker_not_executable)
                   st_leftover))) = 0%nat.
Proof. vm_compute. auto. Qed.

(** X12 with a container runtime that exits with 1. *)
Lemma start_environment_RuntimeError_means_nonzero_exit_witness :
  exists compose_file code,
    self st_leftover !! "compose_file" = Some (PStr compose_file) /\
    run_process (Env := env_compose_fails)
      (record [ECall "start_environment"; ELog INFO "Starting Docker containers..."]
              st_leftover)
      ["docker-compose"; "-f"; compose_file; "up"; "-d"] = Exited code /\
    code <> 0.
Proof.
  destruct (start_environment_RuntimeError_means_nonzero_exit
              (libs := demo_libs) (env := env_compose_fails) st_leftover
              (snd (start_environment (libs := demo_libs) (env := env_compose_fails)
                      st_leftover))
              "Docker Compose failed to start." ltac:(vm_compute; reflexivity))
    as (compose_file & code & Hattr & Hproc & Hcode & _).
  exists compose_file, code. auto.
Defined.

(** X13 for two models. *)
Lemma execute_models_vllm_only_logs_witness :
  self (fresh vllm_config ∅) !! "config" = Some (PConfig vllm_config) /\
  provider (engine vllm_config) = "vllm" /\
  execute_models (libs := demo_libs) (env := env_up) (fresh vllm_config ∅) =
    (Ok tt,
     record [ECall "execute_models";
             ELog INFO "Initializing model: mistral-7b...";
             ELog INFO "vLLM engine should be loading mistral-7b automatically.";
             ELog INFO "Initializing model: phi-3...";
             ELog INFO "vLLM engine should be loading phi-3 automatically."]
            (fresh vllm_config ∅)).
Proof.
  split; [reflexivity|]. split; [reflexivity|].
  exact (proj1 (execute_models_vllm_only_logs (libs := demo_libs) (env := env_up)
                  (fresh vllm_config ∅) vllm_config ltac:(reflexivity) ltac:(reflexivity))).
Defined.

(** X14 with a port that refuses three connections: four probes, and
    the poll returns 6.4 seconds after it began. *)
Lemma wait_for_health_after_refusals_witness :
  exists st',
    _wait_for_health (env := env_slow_start) 60 st_new = (Ok tt, st') /\
    length (gets_of (trace st')) = 4%nat /\
    clock st' = 6400.
Proof.
  destruct (wait_for_health_after_refusals (env := env_slow_start)
              st_new three_models 60 3 100 100 200) as (st' & Hrun & Hlen & Hclock).
  - reflexivity.
  - intros st' Hlt. exists ReqConnectionError. split; [|reflexivity].
    simpl in *. by destruct (Nat.ltb_spec (length (gets_of (trace st'))) 3); [|lia].
  - intros st' Heq. simpl in *.
    by destruct (Nat.ltb_spec (length (gets_of (trace st'))) 3); [lia|].
  - lia.
  - exists st'. split; [exact Hrun|]. split; [exact Hlen|]. rewrite Hclock. reflexivity.
Defined.

(** X15 with a port that refuses at once, every time. *)
Lemma wait_for_health_times_out_within_one_round_witness :
  exists st',
    _wait_for_health (env := env_refusing) 60 st_new =
      (Raise (TimeoutError "Engine failed to become responsive within timeout."), st') /\
    60 * 1000 <= clock st' - clock st_new < 60 * 1000 + 0 + 2000.
Proof.
  apply (wait_for_health_times_out_within_one_round (env := env_refusing)
           st_new three_models 60 0).
  - reflexivity.
  - lia.
  - intros st' url. exists ReqConnectionError, 0%N. split; [reflexivity|]. split; [reflexivity|lia].
Defined.

(** X16 with the leftover manifest and an environment where everything
    answers. *)
Lemma start_environment_brings_everything_up_witness :
  exists new st',
    start_environment (libs := demo_libs) (env := env_up) st_leftover = (Ok tt, st') /\
    trace st' = trace st_leftover ++ new /\
    runs_of new = [["docker-compose"; "-f"; "docker-compose.yml"; "up"; "-d"]] /\
    map fst (gets_of new) = ["http://localhost:11434"] /\
    length (posts_of new) = 3%nat.
Proof.
  destruct (start_environment_brings_everything_up (libs := demo_libs) (env := env_up)
              st_leftover three_models "docker-compose.yml" "version: '3.8'")
    as (new & st' & Hrun & Htrace & Hruns & Hgets & Hposts).
  - reflexivity.
  - reflexivity.
  - reflexivity.
  - reflexivity.
  - intros s. exists 200, 5%N. reflexivity.
  - reflexivity.
  - exists new, st'. split; [exact Hrun|]. split; [exact Htrace|].
    split; [exact Hruns|]. split; [exact Hgets|].
    apply (f_equal (@length _)) in Hposts. rewrite length_map in Hposts.
    exact Hposts.
Defined.

(** [deploy] on a configuration file that loads, without [dry_run]:
    the two lines it prints. *)
Example deploy_reports_attribute_error :
  fst (deploy (libs := demo_libs) (env := env_up) (loader := demo_loader)
         (console := plain_console) "run.json" false
         (mkSt ∅ {["run.json" := "{}"]} 0 [])) =
    (Exit 1,
     ["[bold blue]Loading configuration from run.json...[/bold blue]";
      "[bold red]Deployment failed:[/bold red] error"]).
Proof. vm_compute. reflexivity. Qed.

(** [deploy] on a path that reads as markup with a closing tag, on a
    console that refuses such a tag: the command ends in the console's
    exception and prints nothing, whether the file is there or not. *)
Example deploy_on_markup_in_path :
  fst (deploy (libs := demo_libs) (env := env_up) (loader := demo_loader)
         (console := strict_console) "[/x]" false
         (mkSt ∅ ∅ 0 [])) =
    (Raised (OtherException "MarkupError" "closing tag '[/x]' has nothing to close"), []) /\
  fst (deploy (libs := demo_libs) (env := env_up) (loader := demo_loader)
         (console := strict_console) "[/x]" false
         (mkSt ∅ {["[/x]" := "{}"]} 0 [])) =
    (Raised (OtherException "MarkupError" "closing tag '[/x]' has nothing to close"), []).
Proof. vm_compute. auto. Qed.
